(** * xlsx write path: [File], [AddSheet], the namespace rewrites,
      [MarshallParts] and [Write] of file.go

    The development follows file.go.  Go values are embedded as follows.
    - [int] is a 64-bit two's complement integer: a [Z] with the
      wrap-around of every arithmetic operation written out ([int_add],
      [int_sub]).
    - [float64] is IEEE 754 binary64: [spec_float] at precision 53 and
      maximal exponent 1024, with the operations of the Standard
      Library's [SpecFloat] (round to nearest, ties to even).
    - [string] is a sequence of bytes; [strings.Replace] works on the
      list of bytes.
    - [map[string]string] is a [gmap string string]; the order in which
      [range] visits a Go map is not specified by the language, so the
      loop of [Write] takes the order of the visit as an argument.
    - a run-time panic (index out of range, negative [make] length) and a
      loop that is cut off by its fuel are outcomes of their own, next to
      the value a function returns. *)

From Stdlib Require Import ZArith String Ascii List Permutation Lia.
From Stdlib Require Import SpecFloat.
From stdpp Require Import base strings gmap list pretty.

Local Open Scope Z_scope.

(** ** Go [int] *)

Definition int_min : Z := - 2 ^ 63.
Definition int_max : Z := 2 ^ 63 - 1.

Definition int_wrap (z : Z) : Z := (z + 2 ^ 63) mod 2 ^ 64 - 2 ^ 63.

Definition int_add (a b : Z) : Z := int_wrap (a + b).
Definition int_sub (a b : Z) : Z := int_wrap (a - b).

Definition is_int (z : Z) : Prop := int_min <= z <= int_max.

(** [strconv.Itoa] and the [%d] verb of [fmt.Sprintf]. *)
Definition Itoa (z : Z) : string := pretty z.

(** ** Go [float64] *)

Definition float64 : Type := spec_float.

Definition f64_prec : Z := 53.
Definition f64_emax : Z := 1024.

Definition f64_mul : float64 -> float64 -> float64 := SFmul f64_prec f64_emax.
Definition f64_div : float64 -> float64 -> float64 := SFdiv f64_prec f64_emax.
Definition f64_add : float64 -> float64 -> float64 := SFadd f64_prec f64_emax.
Definition f64_sub : float64 -> float64 -> float64 := SFsub f64_prec f64_emax.

Definition f64_zero : float64 := S754_zero false.

(** The conversion [float64(n)] of an [int]. *)
Definition f64_of_int (n : Z) : float64 :=
  binary_normalize f64_prec f64_emax n 0 false.

(** [x >= y]; false when either side is a NaN. *)
Definition f64_ge (x y : float64) : bool :=
  match SFcompare x y with
  | Some Gt | Some Eq => true
  | _ => false
  end.

(** [x <= y]; false when either side is a NaN. *)
Definition f64_le (x y : float64) : bool := SFleb x y.

(** The conversion [int(x)]: the fraction is discarded.  The language
    leaves the result open when the value does not fit; amd64 yields the
    smallest [int], which is what is written here. *)
Definition int_of_f64 (x : float64) : Z :=
  match x with
  | S754_zero _ => 0
  | S754_finite s m e =>
      let a := if 0 <=? e then Z.pos m * 2 ^ e else Z.pos m / 2 ^ (- e) in
      let v := if s then - a else a in
      if (int_min <=? v) && (v <=? int_max) then v else int_min
  | _ => int_min
  end.

(** ** Go strings: [strings.Index], [strings.Count], [strings.Replace] *)

Definition bytes : Type := list ascii.

Fixpoint HasPrefix (s prefix : bytes) : bool :=
  match prefix, s with
  | [], _ => true
  | p :: prefix', c :: s' => Ascii.eqb p c && HasPrefix s' prefix'
  | _ :: _, [] => false
  end.

(** [strings.Index]: the first position at which [substr] starts in [s];
    [None] is Go's [-1]. *)
Fixpoint Index (s substr : bytes) : option nat :=
  if HasPrefix s substr then Some 0%nat
  else match s with
       | [] => None
       | _ :: s' => S <$> Index s' substr
       end.

(** [strings.Count] for a non-empty [substr]: occurrences that do not
    overlap, found from the left.  Each turn of the loop drops at least
    one byte, so [length s] turns are enough. *)
Fixpoint Count_loop (fuel : nat) (s substr : bytes) (n : nat) : nat :=
  match fuel with
  | O => n
  | S fuel' =>
      match Index s substr with
      | None => n
      | Some i => Count_loop fuel' (drop (i + length substr) s) substr (S n)
      end
  end.

Definition Count (s substr : bytes) : nat :=
  Count_loop (S (length s)) s substr 0.

(** The copying loop of [strings.Replace]: [n] replacements from the
    left, then the rest of the string. *)
Fixpoint Replace_loop (n : nat) (s old new : bytes) : bytes :=
  match n with
  | O => s
  | S n' =>
      match Index s old with
      | None => s
      | Some j => take j s ++ new ++ Replace_loop n' (drop (j + length old) s) old new
      end
  end.

(** [strings.Replace(s, old, new, n)] for a non-empty [old] (both call
    sites of file.go pass a non-empty constant); a negative [n] stands
    for no limit. *)
Definition Replace (s old new : bytes) (n : Z) : bytes :=
  if bool_decide (old = new) || (n =? 0) then s
  else
    let m := Count s old in
    if (m =? 0)%nat then s
    else
      let n' := if (n <? 0) || (Z.of_nat m <? n) then m else Z.to_nat n in
      Replace_loop n' s old new.

Definition strings_Replace (s old new : string) (n : Z) : string :=
  string_of_list_ascii
    (Replace (list_ascii_of_string s) (list_ascii_of_string old)
             (list_ascii_of_string new) n).

(** The double quote, for string constants that contain it. *)
Definition dq : string := String "034"%char EmptyString.

(** ** Outcomes *)

Definition error : Type := string.

(** What a Go call does: it returns, it panics, or (for the loops whose
    exit depends on floating-point values) it is cut off by its fuel. *)
Inductive outcome (A : Type) : Type :=
  | Return (a : A)
  | Panic (msg : string)
  | OutOfFuel.
Arguments Return {A} a.
Arguments Panic {A} msg.
Arguments OutOfFuel {A}.

Definition obind {A B : Type} (x : outcome A) (k : A -> outcome B) : outcome B :=
  match x with
  | Return a => k a
  | Panic msg => Panic msg
  | OutOfFuel => OutOfFuel
  end.

#[global] Instance outcome_ret : MRet outcome := @Return.
#[global] Instance outcome_bind : MBind outcome := fun A B k x => obind x k.

Definition returned {A : Type} (x : outcome A) : Prop :=
  match x with Return _ => True | _ => False end.

Definition index_out_of_range : string := "index out of range".
Definition makeslice_len_out_of_range : string := "makeslice: len out of range".

(** [s[i]] of a slice: a read outside the slice panics. *)
Definition slice_get {A : Type} (s : list A) (i : Z) : outcome A :=
  if i <? 0 then Panic index_out_of_range
  else match s !! Z.to_nat i with
       | Some a => Return a
       | None => Panic index_out_of_range
       end.

(** [s[i] = a] of a slice: a write outside the slice panics. *)
Definition slice_set {A : Type} (s : list A) (i : Z) (a : A) : outcome (list A) :=
  if (i <? 0) || (Z.of_nat (length s) <=? i) then Panic index_out_of_range
  else Return (<[Z.to_nat i := a]> s).

(** ** The workbook model *)

Inductive ImageType : Type :=
  | IMAGE_TYPE_JPG
  | IMAGE_TYPE_GIF
  | IMAGE_TYPE_PNG
  | IMAGE_TYPE_other.

Record CellRef : Type := {
  ColNum : Z;
  RowNum : Z
}.

Record Drawing : Type := {
  Drawing_ImageType : ImageType;
  Drawing_ImageData : string;
  Drawing_TopLeftCell : CellRef;
  Drawing_ColCount : Z;
  Drawing_RowCount : Z;
  Drawing_Width : Z;
  Drawing_Height : Z
}.

Record Col : Type := {
  Col_Min : Z;
  Col_Max : Z;
  Col_Width : float64
}.

(** A sheet, with the fields file.go reads or sets.  The [File] field of
    the Go struct points back to the owning file and is left out. *)
Record Sheet : Type := {
  Sheet_Name : string;
  Sheet_Selected : bool;
  Sheet_Rows : list (list string);
  Sheet_Cols : list Col;
  Sheet_MaxCol : Z;
  Sheet_Drawings : list Drawing
}.

(** ** The documents that are marshalled *)

Record xlsxOverride : Type := {
  PartName : string;
  ContentType : string
}.

Record xlsxDefault : Type := {
  Extension : string;
  DefaultContentType : string
}.

Record xlsxTypes : Type := {
  Overrides : list xlsxOverride;
  Defaults : list xlsxDefault
}.

Record xlsxSheet : Type := {
  xlsxSheet_Name : string;
  xlsxSheet_SheetId : string;
  xlsxSheet_Id : string;
  xlsxSheet_State : string
}.

Record xlsxWorkBookView : Type := {
  ShowHorizontalScroll : bool;
  ShowSheetTabs : bool;
  ShowVerticalScroll : bool;
  TabRatio : Z;
  WindowHeight : Z;
  WindowWidth : Z;
  XWindow : string;
  YWindow : string
}.

Record xlsxCalcPr : Type := {
  IterateCount : Z;
  RefMode : string;
  Iterate : bool;
  IterateDelta : float64
}.

Record xlsxWorkbook : Type := {
  FileVersion_AppName : string;
  WorkbookPr_ShowObjects : string;
  BookViews_WorkBookView : list xlsxWorkBookView;
  Sheets_Sheet : list xlsxSheet;
  CalcPr : xlsxCalcPr
}.

(** Modelled from the spec: the drawing part, which is not in file.go.  A
    drawing part is the list of its two-cell anchor entries, each the
    top-left cell, the bottom-right cell, the four sub-cell offsets and
    the identifier of the media relationship, in the order of the
    arguments of [AddDrawingTwoCellAnchor]. *)
Record TwoCellAnchor : Type := {
  fromCol : Z;
  fromColOff : Z;
  fromRow : Z;
  fromRowOff : Z;
  toCol : Z;
  toColOff : Z;
  toRow : Z;
  toRowOff : Z;
  embedId : string
}.

Definition xlsxDrawing : Type := list TwoCellAnchor.

Definition newXlsxDrawing : xlsxDrawing := [].

Definition AddDrawingTwoCellAnchor
    (fc fco fr fro tc tco tr tro : Z) (embed : string) (d : xlsxDrawing) : xlsxDrawing :=
  d ++ [ {| fromCol := fc; fromColOff := fco; fromRow := fr; fromRowOff := fro;
            toCol := tc; toColOff := tco; toRow := tr; toRowOff := tro;
            embedId := embed |} ].

(** Modelled from the spec: a relationship set, which is not in file.go.
    It maps a relationship identifier to a target part path;
    identifiers are ordinal-tagged tokens, unique per owning part and
    never reused. *)
Record xlsxRelationship : Type := {
  Relationship_Id : string;
  Relationship_Target : string
}.

Definition xlsxDrawingRelationships : Type := list xlsxRelationship.
Definition xlsxWorksheetRelationships : Type := list xlsxRelationship.

Definition newXlsxDrawingRelationships : xlsxDrawingRelationships := [].
Definition newXlsxWorksheetRelationships : xlsxWorksheetRelationships := [].

Definition next_rId (rels : list xlsxRelationship) : string :=
  "rId" +:+ Itoa (Z.of_nat (length rels) + 1).

(** Modelled from the spec: registers the image as a target of the
    drawing part and returns the fresh identifier. *)
Definition AddDrawingRelationship
    (imageName : string) (rels : xlsxDrawingRelationships)
  : string * xlsxDrawingRelationships :=
  let id := next_rId rels in
  (id, rels ++ [ {| Relationship_Id := id;
                    Relationship_Target := "../media/" +:+ imageName |} ]).

(** Modelled from the spec: registers the drawing part as a target of the
    worksheet part. *)
Definition AddWorksheetDrawingRelationship
    (drawingXML : string) (rels : xlsxWorksheetRelationships)
  : xlsxWorksheetRelationships :=
  rels ++ [ {| Relationship_Id := next_rId rels;
               Relationship_Target := "../drawings/" +:+ drawingXML |} ].

(** ** What file.go takes from the rest of the package

    Types, functions and constants of the package that file.go uses and
    that are declared in other files.  Every definition below that
    depends on one of them takes this record. *)
Class Collaborators : Type := {
  (* types *)
  xlsxStyleSheet : Type;
  theme : Type;
  xlsxDefinedName : Type;
  RefTable : Type;
  xlsxWorksheet : Type;
  xlsxSST : Type;
  xlsxWorkbookRels : Type;
  (* the shared-string table *)
  NewSharedStringRefTable : RefTable;
  RefTable_set_isWrite : bool -> RefTable -> RefTable;
  makeXLSXSST : RefTable -> xlsxSST;
  (* the style sheet *)
  newXlsxStyleSheet : option theme -> xlsxStyleSheet;
  styles_reset : xlsxStyleSheet -> xlsxStyleSheet;
  styles_Marshal : xlsxStyleSheet -> string * option error;
  (* the worksheet serializer; it updates the table and the styles *)
  makeXLSXSheet :
    Sheet -> RefTable -> xlsxStyleSheet -> xlsxWorksheet * RefTable * xlsxStyleSheet;
  (* the registry *)
  MakeDefaultContentTypes : xlsxTypes;
  MakeXLSXWorkbookRels : gmap string string -> xlsxWorkbookRels;
  (* encoding/xml's Marshal at each type it is called at *)
  xml_Marshal_worksheet : xlsxWorksheet -> string + error;
  xml_Marshal_drawing : xlsxDrawing -> string + error;
  xml_Marshal_drawingRels : xlsxDrawingRelationships -> string + error;
  xml_Marshal_worksheetRels : xlsxWorksheetRelationships -> string + error;
  xml_Marshal_workbook : xlsxWorkbook -> string + error;
  xml_Marshal_SST : xlsxSST -> string + error;
  xml_Marshal_workbookRels : xlsxWorkbookRels -> string + error;
  xml_Marshal_types : xlsxTypes -> string + error;
  (* constants *)
  IMAGE_EXT_JPG : string;
  IMAGE_EXT_GIF : string;
  IMAGE_EXT_PNG : string;
  PixelPerUnitHeight : float64;
  UnitHeightPerCell : float64;
  PixelPerUnitWidth : float64;
  NumberPerUnitWidth : float64;
  NumberPerUnitHeight : float64;
  TEMPLATE__RELS_DOT_RELS : string;
  TEMPLATE_DOCPROPS_APP : string;
  TEMPLATE_DOCPROPS_CORE : string;
  TEMPLATE_XL_THEME_THEME : string
}.

(** ** [File], [NewFile], [AddSheet] *)

(** The fields [worksheets] and [referenceTable] are written by the
    reader only and are left out.  A sheet is held by value both in
    [File_Sheets] and, under its name, in [File_Sheet]; file.go does not
    change a sheet after [AddSheet] has created it. *)
Record File `{Collaborators} : Type := {
  File_Date1904 : bool;
  File_styles : option xlsxStyleSheet;
  File_Sheets : list Sheet;
  File_Sheet : gmap string Sheet;
  File_theme : option theme;
  File_DefinedNames : list xlsxDefinedName;
  File_Drawings : list (list Drawing)
}.

Section FileOps.
Context `{C : Collaborators}.

Definition NewFile : File := {|
  File_Date1904 := false;
  File_styles := None;
  File_Sheets := [];
  File_Sheet := ∅;
  File_theme := None;
  File_DefinedNames := [];
  File_Drawings := []
|}.

Definition File_with_sheet (f : File) (sheet : Sheet) : File := {|
  File_Date1904 := File_Date1904 f;
  File_styles := File_styles f;
  File_Sheets := File_Sheets f ++ [sheet];
  File_Sheet := <[Sheet_Name sheet := sheet]> (File_Sheet f);
  File_theme := File_theme f;
  File_DefinedNames := File_DefinedNames f;
  File_Drawings := File_Drawings f
|}.

(** [AddSheet]: the file after the call, and what the call returns. *)
Definition AddSheet (f : File) (sheetName : string) : File * (Sheet + error) :=
  match File_Sheet f !! sheetName with
  | Some _ => (f, inr ("duplicate sheet name '" +:+ sheetName +:+ "'."))
  | None =>
      let sheet := {|
        Sheet_Name := sheetName;
        Sheet_Selected := bool_decide (length (File_Sheets f) = 0%nat);
        Sheet_Rows := [];
        Sheet_Cols := [];
        Sheet_MaxCol := 0;
        Sheet_Drawings := []
      |} in
      (File_with_sheet f sheet, inl sheet)
  end.

(** A file built from [NewFile] by a sequence of [AddSheet] calls, the
    names given in the order of the calls. *)
Definition build (names : list string) : File :=
  fold_left (fun f name => fst (AddSheet f name)) names NewFile.

(** The 0.001 of [IterateDelta], to the nearest binary64. *)
Definition f64_0_001 : float64 := S754_finite false 4611686018427388 (-62).

Definition makeWorkbook (f : File) : xlsxWorkbook := {|
  FileVersion_AppName := "Go XLSX";
  WorkbookPr_ShowObjects := "all";
  BookViews_WorkBookView := [ {|
    ShowHorizontalScroll := true;
    ShowSheetTabs := true;
    ShowVerticalScroll := true;
    TabRatio := 204;
    WindowHeight := 8192;
    WindowWidth := 16384;
    XWindow := "0";
    YWindow := "0" |} ];
  Sheets_Sheet :=
    replicate (length (File_Sheets f))
      {| xlsxSheet_Name := ""; xlsxSheet_SheetId := "";
         xlsxSheet_Id := ""; xlsxSheet_State := "" |};
  CalcPr := {|
    IterateCount := 100;
    RefMode := "A1";
    Iterate := false;
    IterateDelta := f64_0_001 |}
|}.

End FileOps.

(** ** The namespace rewrites *)

Definition relationships_attr : string :=
  "xmlns:relationships=" +:+ dq
  +:+ "http://schemas.openxmlformats.org/officeDocument/2006/relationships"
  +:+ dq +:+ " relationships:id".

Definition workbook_oldXmlns : string :=
  "<workbook xmlns=" +:+ dq
  +:+ "http://schemas.openxmlformats.org/spreadsheetml/2006/main" +:+ dq +:+ ">".

Definition workbook_newXmlns : string :=
  "<workbook xmlns=" +:+ dq
  +:+ "http://schemas.openxmlformats.org/spreadsheetml/2006/main" +:+ dq
  +:+ " xmlns:r=" +:+ dq
  +:+ "http://schemas.openxmlformats.org/officeDocument/2006/relationships"
  +:+ dq +:+ ">".

Definition replaceRelationshipsNameSpace (workbookMarshal : string) : string :=
  let newWorkbook := strings_Replace workbookMarshal relationships_attr "r:id" (-1) in
  strings_Replace newWorkbook workbook_oldXmlns workbook_newXmlns 1.

Definition worksheet_oldXmlns : string :=
  "<worksheet xmlns=" +:+ dq
  +:+ "http://schemas.openxmlformats.org/spreadsheetml/2006/main" +:+ dq +:+ ">".

Definition worksheet_newXmlns : string :=
  "<worksheet xmlns=" +:+ dq
  +:+ "http://schemas.openxmlformats.org/spreadsheetml/2006/main" +:+ dq
  +:+ " xmlns:mc=" +:+ dq
  +:+ "http://schemas.openxmlformats.org/markup-compatibility/2006" +:+ dq
  +:+ " xmlns:r=" +:+ dq
  +:+ "http://schemas.openxmlformats.org/officeDocument/2006/relationships"
  +:+ dq +:+ ">".

Definition replaceWorksheetNameSpace (worksheetMarshal : string) : string :=
  strings_Replace worksheetMarshal worksheet_oldXmlns worksheet_newXmlns 1.

(** ** [MarshallParts] *)

Definition xml_decl : string :=
  "<?xml version=" +:+ dq +:+ "1.0" +:+ dq +:+ " encoding=" +:+ dq +:+ "UTF-8"
  +:+ dq +:+ "?>".

Definition xml_decl_standalone : string :=
  "<?xml version=" +:+ dq +:+ "1.0" +:+ dq +:+ " encoding=" +:+ dq +:+ "UTF-8"
  +:+ dq +:+ " standalone=" +:+ dq +:+ "yes" +:+ dq +:+ "?>".

(** [xml.Header] of encoding/xml. *)
Definition xml_Header : string := xml_decl +:+ String "010"%char EmptyString.

(** The closure [marshal] of [MarshallParts], at the type whose
    [xml.Marshal] is [xm]. *)
Definition marshal {A : Type} (xm : A -> string + error) (thing : A)
  : string * option error :=
  match xm thing with
  | inr err => ("", Some err)
  | inl body =>
      let outputStr := replaceWorksheetNameSpace body in
      (strings_Replace xml_Header xml_decl xml_decl_standalone (-1) +:+ outputStr,
       None)
  end.

Fixpoint foldM {A B : Type} (f : B -> A -> outcome B) (l : list A) (b : B)
  : outcome B :=
  match l with
  | [] => Return b
  | a :: l' => b' ← f b a; foldM f l' b'
  end.

Section Packaging.
Context `{C : Collaborators}.

(** The state of one pass: the local variables of [MarshallParts] that
    the loop over the sheets updates, with the style sheet of the file. *)
Record pass : Type := {
  parts : gmap string string;
  refTable : RefTable;
  styles : xlsxStyleSheet;
  workbookRels : gmap string string;
  workbook : xlsxWorkbook;
  types : xlsxTypes;
  sheetIndex : Z;
  drawingCount : Z
}.

Definition workbook_with_sheets (w : xlsxWorkbook) (l : list xlsxSheet) : xlsxWorkbook := {|
  FileVersion_AppName := FileVersion_AppName w;
  WorkbookPr_ShowObjects := WorkbookPr_ShowObjects w;
  BookViews_WorkBookView := BookViews_WorkBookView w;
  Sheets_Sheet := l;
  CalcPr := CalcPr w
|}.

Definition add_override (t : xlsxTypes) (o : xlsxOverride) : xlsxTypes :=
  {| Overrides := Overrides t ++ [o]; Defaults := Defaults t |}.

(** [colWidths[i] = col.Width] for [i] from [col.Min - 1] up to, not
    including, [col.Max]; [n] is the number of turns left. *)
Fixpoint fill_col (n : nat) (w : float64) (i : Z) (colWidths : list float64)
  : outcome (list float64) :=
  match n with
  | O => Return colWidths
  | S n' => colWidths' ← slice_set colWidths i w; fill_col n' w (i + 1) colWidths'
  end.

Definition make_colWidths (sheet : Sheet) : outcome (list float64) :=
  if Sheet_MaxCol sheet <? 0 then Panic makeslice_len_out_of_range
  else
    foldM (fun colWidths col =>
             let i := int_sub (Col_Min col) 1 in
             fill_col (Z.to_nat (Col_Max col - i)) (Col_Width col) i colWidths)
          (Sheet_Cols sheet)
          (replicate (Z.to_nat (Sheet_MaxCol sheet)) f64_zero).

(** The loop of the branch for a row count alone:
    [for targeWidth >= colWidths[colIndex]*NumberPerUnitWidth]. *)
Fixpoint walk_cols (fuel : nat) (colWidths : list float64)
    (targeWidth : float64) (colIndex : Z) : outcome (Z * float64) :=
  match fuel with
  | O => OutOfFuel
  | S fuel' =>
      w ← slice_get colWidths colIndex;
      if f64_ge targeWidth (f64_mul w NumberPerUnitWidth) then
        walk_cols fuel' colWidths
                  (f64_sub targeWidth (f64_mul w NumberPerUnitWidth))
                  (int_add colIndex 1)
      else Return (colIndex, targeWidth)
  end.

(** The loop of the branch for a column count:
    [for colIndex := ...; colIndex < toCol; colIndex++]; [n] is the
    number of turns left. *)
Fixpoint sum_cols (n : nat) (colWidths : list float64)
    (targetWidthInPixel : float64) (colIndex : Z) : outcome float64 :=
  match n with
  | O => Return targetWidthInPixel
  | S n' =>
      w ← slice_get colWidths colIndex;
      sum_cols n' colWidths
               (f64_add targetWidthInPixel (f64_mul w PixelPerUnitWidth))
               (colIndex + 1)
  end.

(** [for targetHeight >= UnitHeightPerCell*NumberPerUnitHeight]. *)
Fixpoint walk_rows (fuel : nat) (targetHeight : float64) (rowIndex : Z)
  : outcome (Z * float64) :=
  match fuel with
  | O => OutOfFuel
  | S fuel' =>
      if f64_ge targetHeight (f64_mul UnitHeightPerCell NumberPerUnitHeight) then
        walk_rows fuel'
                  (f64_sub targetHeight (f64_mul UnitHeightPerCell NumberPerUnitHeight))
                  (int_add rowIndex 1)
      else Return (rowIndex, targetHeight)
  end.

(** The target pixel width of the branch for a row count alone. *)
Definition targetWidthInPixel_of (drawing : Drawing) : float64 :=
  let targetHeightInPixel :=
    f64_mul (f64_mul PixelPerUnitHeight UnitHeightPerCell)
            (f64_of_int (Drawing_RowCount drawing)) in
  f64_mul (f64_div (f64_of_int (Drawing_Width drawing))
                   (f64_of_int (Drawing_Height drawing)))
          targetHeightInPixel.

(** The bottom-right cell and its offsets: [(toCol, toColOff, toRow,
    toRowOff)], the [if] of the loop over the drawings.  The three
    [fmt.Println] of the last branch write to the standard output only
    and are left out. *)
Definition bottom_right (fuel : nat) (colWidths : list float64) (drawing : Drawing)
  : outcome (Z * Z * Z * Z) :=
  let c0 := ColNum (Drawing_TopLeftCell drawing) in
  let r0 := RowNum (Drawing_TopLeftCell drawing) in
  if (0 <? Drawing_RowCount drawing) && (0 <? Drawing_ColCount drawing) then
    Return (int_add c0 (Drawing_ColCount drawing), 0,
            int_add r0 (Drawing_RowCount drawing), 0)
  else if 0 <? Drawing_RowCount drawing then
    let toRow := int_add r0 (Drawing_RowCount drawing) in
    let targetWidthInPixel := targetWidthInPixel_of drawing in
    let targeWidth :=
      f64_mul (f64_div targetWidthInPixel PixelPerUnitWidth) NumberPerUnitWidth in
    '(colIndex, targeWidth') ← walk_cols fuel colWidths targeWidth c0;
    Return (colIndex, int_of_f64 targeWidth', toRow, 0)
  else
    let toCol := int_add c0 (Drawing_ColCount drawing) in
    targetWidthInPixel ← sum_cols (Z.to_nat (toCol - c0)) colWidths f64_zero c0;
    let targetHeightInPixel :=
      f64_mul (f64_div (f64_of_int (Drawing_Height drawing))
                       (f64_of_int (Drawing_Width drawing)))
              targetWidthInPixel in
    let targetHeight :=
      f64_mul (f64_div targetHeightInPixel PixelPerUnitHeight) NumberPerUnitHeight in
    '(rowIndex, targetHeight') ← walk_rows fuel targetHeight r0;
    Return (toCol, 0, rowIndex, int_of_f64 targetHeight').

Definition imageExt_of (t : ImageType) : string :=
  match t with
  | IMAGE_TYPE_JPG => IMAGE_EXT_JPG
  | IMAGE_TYPE_GIF => IMAGE_EXT_GIF
  | IMAGE_TYPE_PNG => IMAGE_EXT_PNG
  | IMAGE_TYPE_other => ""
  end.

Definition imageName_of (drawingCount : Z) (drawing : Drawing) : string :=
  "image" +:+ Itoa drawingCount +:+ imageExt_of (Drawing_ImageType drawing).

Definition media_path (imageName : string) : string := "xl/media/" +:+ imageName.

(** What the loop over the drawings of one sheet updates. *)
Record drawings_state : Type := {
  ds_parts : gmap string string;
  ds_drawingCount : Z;
  ds_xDrawingRel : xlsxDrawingRelationships;
  ds_xDrawing : xlsxDrawing
}.

(** One turn of [for _, drawing := range sheet.Drawings]. *)
Definition drawing_step (fuel : nat) (colWidths : list float64)
    (st : drawings_state) (drawing : Drawing) : outcome drawings_state :=
  let drawingCount := int_add (ds_drawingCount st) 1 in
  let imageName := imageName_of drawingCount drawing in
  let parts := <[media_path imageName := Drawing_ImageData drawing]> (ds_parts st) in
  '(toCol, toColOff, toRow, toRowOff) ← bottom_right fuel colWidths drawing;
  let '(embedId, xDrawingRel) := AddDrawingRelationship imageName (ds_xDrawingRel st) in
  let xDrawing :=
    AddDrawingTwoCellAnchor
      (ColNum (Drawing_TopLeftCell drawing)) 0
      (RowNum (Drawing_TopLeftCell drawing)) 0
      toCol toColOff toRow toRowOff embedId (ds_xDrawing st) in
  Return {| ds_parts := parts; ds_drawingCount := drawingCount;
            ds_xDrawingRel := xDrawingRel; ds_xDrawing := xDrawing |}.

(** [for _, drawing := range sheet.Drawings]. *)
Definition drawings_loop (fuel : nat) (colWidths : list float64)
    (drawings : list Drawing) (st : drawings_state) : outcome drawings_state :=
  foldM (drawing_step fuel colWidths) drawings st.

Definition worksheet_ContentType : string :=
  "application/vnd.openxmlformats-officedocument.spreadsheetml.worksheet+xml".
Definition drawing_ContentType : string :=
  "application/vnd.openxmlformats-officedocument.drawing+xml".

(** A pass either goes on with its state or has returned [parts, err]
    (the state at that point holds [parts] and the style sheet). *)
Definition progress : Type := pass + pass * error.

Definition with_parts (st : pass) (p : gmap string string) : pass := {|
  parts := p; refTable := refTable st; styles := styles st;
  workbookRels := workbookRels st; workbook := workbook st; types := types st;
  sheetIndex := sheetIndex st; drawingCount := drawingCount st
|}.

(** [parts[key], err = ...; if err != nil { return parts, err }]. *)
Definition store (st : pass) (key : string) (r : string * option error)
    (k : pass -> outcome progress) : outcome progress :=
  let st' := with_parts st (<[key := r.1]> (parts st)) in
  match r.2 with
  | Some err => Return (inr (st', err))
  | None => k st'
  end.

(** One turn of [for _, sheet := range f.Sheets]. *)
Definition sheet_step (fuel : nat) (st : pass) (sheet : Sheet) : outcome progress :=
  let '(xSheet, refTable', styles') := makeXLSXSheet sheet (refTable st) (styles st) in
  let rId := "rId" +:+ Itoa (sheetIndex st) in
  let sheetId := Itoa (sheetIndex st) in
  let sheetPath := "worksheets/sheet" +:+ Itoa (sheetIndex st) +:+ ".xml" in
  let partName := "xl/" +:+ sheetPath in
  let types1 :=
    add_override (types st)
      {| PartName := "/" +:+ partName; ContentType := worksheet_ContentType |} in
  let workbookRels' := <[rId := sheetPath]> (workbookRels st) in
  sheets' ← slice_set (Sheets_Sheet (workbook st)) (int_sub (sheetIndex st) 1)
             {| xlsxSheet_Name := Sheet_Name sheet; xlsxSheet_SheetId := sheetId;
                xlsxSheet_Id := rId; xlsxSheet_State := "visible" |};
  let st1 := {|
    parts := parts st; refTable := refTable'; styles := styles';
    workbookRels := workbookRels';
    workbook := workbook_with_sheets (workbook st) sheets';
    types := types1; sheetIndex := sheetIndex st; drawingCount := drawingCount st |} in
  store st1 partName (marshal xml_Marshal_worksheet xSheet) (fun st2 =>
  colWidths ← make_colWidths sheet;
  ds ← drawings_loop fuel colWidths (Sheet_Drawings sheet)
         {| ds_parts := parts st2; ds_drawingCount := drawingCount st2;
            ds_xDrawingRel := newXlsxDrawingRelationships;
            ds_xDrawing := newXlsxDrawing |};
  let drawingXML := "drawing" +:+ Itoa (sheetIndex st2) +:+ ".xml" in
  let drawingPartName := "xl/drawings/" +:+ drawingXML in
  let st3 := {|
    parts := ds_parts ds; refTable := refTable st2; styles := styles st2;
    workbookRels := workbookRels st2; workbook := workbook st2;
    types := add_override (types st2)
               {| PartName := "/" +:+ drawingPartName;
                  ContentType := drawing_ContentType |};
    sheetIndex := sheetIndex st2; drawingCount := ds_drawingCount ds |} in
  store st3 ("xl/drawings/_rels/" +:+ drawingXML +:+ ".rels")
        (marshal xml_Marshal_drawingRels (ds_xDrawingRel ds)) (fun st4 =>
  store st4 drawingPartName (marshal xml_Marshal_drawing (ds_xDrawing ds)) (fun st5 =>
  let xSheetRelationships :=
    AddWorksheetDrawingRelationship drawingXML newXlsxWorksheetRelationships in
  store st5 ("xl/worksheets/_rels/sheet" +:+ Itoa (sheetIndex st5) +:+ ".xml.rels")
        (marshal xml_Marshal_worksheetRels xSheetRelationships) (fun st6 =>
  Return (inl {|
    parts := parts st6; refTable := refTable st6; styles := styles st6;
    workbookRels := workbookRels st6; workbook := workbook st6; types := types st6;
    sheetIndex := int_add (sheetIndex st6) 1; drawingCount := drawingCount st6 |}))))).

Fixpoint sheets_loop (fuel : nat) (sheets : list Sheet) (st : pass) : outcome progress :=
  match sheets with
  | [] => Return (inl st)
  | sheet :: sheets' =>
      r ← sheet_step fuel st sheet;
      match r with
      | inl st' => sheets_loop fuel sheets' st'
      | inr e => Return (inr e)
      end
  end.

(** The part of [MarshallParts] after the loop over the sheets. *)
Definition finish (st : pass) : outcome progress :=
  let '(workbookMarshal, err) := marshal xml_Marshal_workbook (workbook st) in
  match err with
  | Some e => Return (inr (st, e))
  | None =>
      let workbookMarshal := replaceRelationshipsNameSpace workbookMarshal in
      let p := <["xl/workbook.xml" := workbookMarshal]> (parts st) in
      let p := <["_rels/.rels" := TEMPLATE__RELS_DOT_RELS]> p in
      let p := <["docProps/app.xml" := TEMPLATE_DOCPROPS_APP]> p in
      let p := <["docProps/core.xml" := TEMPLATE_DOCPROPS_CORE]> p in
      let p := <["xl/theme/theme1.xml" := TEMPLATE_XL_THEME_THEME]> p in
      let xSST := makeXLSXSST (refTable st) in
      store (with_parts st p) "xl/sharedStrings.xml" (marshal xml_Marshal_SST xSST)
        (fun st1 =>
      let xWRel := MakeXLSXWorkbookRels (workbookRels st1) in
      store st1 "xl/_rels/workbook.xml.rels" (marshal xml_Marshal_workbookRels xWRel)
        (fun st2 =>
      store st2 "[Content_Types].xml" (marshal xml_Marshal_types (types st2))
        (fun st3 =>
      store st3 "xl/styles.xml" (styles_Marshal (styles st3))
        (fun st4 => Return (inl st4)))))
  end.

Definition File_with_styles (f : File) (s : xlsxStyleSheet) : File := {|
  File_Date1904 := File_Date1904 f;
  File_styles := Some s;
  File_Sheets := File_Sheets f;
  File_Sheet := File_Sheet f;
  File_theme := File_theme f;
  File_DefinedNames := File_DefinedNames f;
  File_Drawings := File_Drawings f
|}.

(** The body of [MarshallParts]: the state in which the pass ends. *)
Definition run_pass (fuel : nat) (f : File) : outcome progress :=
  let refTable := RefTable_set_isWrite true NewSharedStringRefTable in
  let styles0 :=
    match File_styles f with
    | None => newXlsxStyleSheet (File_theme f)
    | Some s => s
    end in
  let st0 := {|
    parts := ∅; refTable := refTable; styles := styles_reset styles0;
    workbookRels := ∅; workbook := makeWorkbook f; types := MakeDefaultContentTypes;
    sheetIndex := 1; drawingCount := 0 |} in
  r ← sheets_loop fuel (File_Sheets f) st0;
  match r with
  | inl st => finish st
  | inr e => Return (inr e)
  end.

(** [MarshallParts]: the file after the call (its style sheet is
    updated in place), the part map and the error. *)
Definition MarshallParts (fuel : nat) (f : File)
  : outcome (File * gmap string string * option error) :=
  r ← run_pass fuel f;
  match r with
  | inl st => Return (File_with_styles f (styles st), parts st, None)
  | inr (st, err) => Return (File_with_styles f (styles st), parts st, Some err)
  end.

(** ** [Write] *)




End Packaging.

(** ** A small instance of the collaborators

    Used for the examples that run the code on a document.  The
    worksheet serializer interns the cell strings in the order of the
    rows; the marshallers print a root element and nothing else; the
    constants are positive.  None of the general theorems depends on
    it. *)
Module Sample.

Definition intern (rt : list string) (row : list string) : list string :=
  foldl (fun rt v => if bool_decide (v ∈ rt) then rt else rt ++ [v]) rt row.

Definition default_types : xlsxTypes := {|
  Overrides := [
    {| PartName := "/_rels/.rels";
       ContentType := "application/vnd.openxmlformats-package.relationships+xml" |};
    {| PartName := "/docProps/app.xml";
       ContentType := "application/vnd.openxmlformats-officedocument.extended-properties+xml" |};
    {| PartName := "/docProps/core.xml";
       ContentType := "application/vnd.openxmlformats-package.core-properties+xml" |};
    {| PartName := "/xl/_rels/workbook.xml.rels";
       ContentType := "application/vnd.openxmlformats-package.relationships+xml" |};
    {| PartName := "/xl/sharedStrings.xml";
       ContentType := "application/vnd.openxmlformats-officedocument.spreadsheetml.sharedStrings+xml" |};
    {| PartName := "/xl/styles.xml";
       ContentType := "application/vnd.openxmlformats-officedocument.spreadsheetml.styles+xml" |};
    {| PartName := "/xl/workbook.xml";
       ContentType := "application/vnd.openxmlformats-officedocument.spreadsheetml.sheet.main+xml" |};
    {| PartName := "/xl/theme/theme1.xml";
       ContentType := "application/vnd.openxmlformats-officedocument.theme+xml" |} ];
  Defaults := [
    {| Extension := "rels";
       DefaultContentType := "application/vnd.openxmlformats-package.relationships+xml" |};
    {| Extension := "xml"; DefaultContentType := "application/xml" |};
    {| Extension := "png"; DefaultContentType := "image/png" |};
    {| Extension := "jpeg"; DefaultContentType := "image/jpeg" |};
    {| Extension := "gif"; DefaultContentType := "image/gif" |} ]
|}.

Definition collaborators : Collaborators := {|
  xlsxStyleSheet := unit;
  theme := unit;
  xlsxDefinedName := string;
  RefTable := list string;
  xlsxWorksheet := list (list string);
  xlsxSST := list string;
  xlsxWorkbookRels := list (string * string);
  NewSharedStringRefTable := [];
  RefTable_set_isWrite := fun _ rt => rt;
  makeXLSXSST := fun rt => rt;
  newXlsxStyleSheet := fun _ => tt;
  styles_reset := fun s => s;
  styles_Marshal := fun _ => ("<styleSheet/>", None);
  makeXLSXSheet := fun sheet rt st => (Sheet_Rows sheet, foldl intern rt (Sheet_Rows sheet), st);
  MakeDefaultContentTypes := default_types;
  MakeXLSXWorkbookRels := fun rels => map_to_list rels;
  xml_Marshal_worksheet := fun _ => inl "<worksheet/>";
  xml_Marshal_drawing := fun _ => inl "<wsDr/>";
  xml_Marshal_drawingRels := fun _ => inl "<Relationships/>";
  xml_Marshal_worksheetRels := fun _ => inl "<Relationships/>";
  xml_Marshal_workbook := fun _ => inl "<workbook/>";
  xml_Marshal_SST := fun _ => inl "<sst/>";
  xml_Marshal_workbookRels := fun _ => inl "<Relationships/>";
  xml_Marshal_types := fun _ => inl "<Types/>";
  IMAGE_EXT_JPG := ".jpeg";
  IMAGE_EXT_GIF := ".gif";
  IMAGE_EXT_PNG := ".png";
  PixelPerUnitHeight := f64_of_int 2;
  UnitHeightPerCell := f64_of_int 10;
  PixelPerUnitWidth := f64_of_int 8;
  NumberPerUnitWidth := f64_of_int 9525;
  NumberPerUnitHeight := f64_of_int 9525;
  TEMPLATE__RELS_DOT_RELS := "<Relationships/>";
  TEMPLATE_DOCPROPS_APP := "<Properties/>";
  TEMPLATE_DOCPROPS_CORE := "<cp:coreProperties/>";
  TEMPLATE_XL_THEME_THEME := "<a:theme/>"
|}.

(** A file with the one sheet [sheet]. *)
Definition one_sheet (sheet : Sheet) : @File collaborators := {|
  File_Date1904 := false;
  File_styles := None;
  File_Sheets := [sheet];
  File_Sheet := {[ Sheet_Name sheet := sheet ]};
  File_theme := None;
  File_DefinedNames := [];
  File_Drawings := []
|}.

Definition sheet_with (maxCol : Z) (cols : list Col) (drawings : list Drawing) : Sheet := {|
  Sheet_Name := "Sheet1";
  Sheet_Selected := true;
  Sheet_Rows := [];
  Sheet_Cols := cols;
  Sheet_MaxCol := maxCol;
  Sheet_Drawings := drawings
|}.

Definition png (c0 r0 colCount rowCount width height : Z) : Drawing := {|
  Drawing_ImageType := IMAGE_TYPE_PNG;
  Drawing_ImageData := "PNG";
  Drawing_TopLeftCell := {| ColNum := c0; RowNum := r0 |};
  Drawing_ColCount := colCount;
  Drawing_RowCount := rowCount;
  Drawing_Width := width;
  Drawing_Height := height
|}.


(** A marshalled workbook and a marshalled worksheet, as encoding/xml
    prints them before the rewrites. *)
Definition workbook_xml : string :=
  workbook_oldXmlns +:+ "<sheets><sheet name=" +:+ dq +:+ "Sheet1" +:+ dq
  +:+ " sheetId=" +:+ dq +:+ "1" +:+ dq +:+ " " +:+ relationships_attr
  +:+ "=" +:+ dq +:+ "rId1" +:+ dq +:+ " state=" +:+ dq +:+ "visible" +:+ dq
  +:+ "></sheet><sheet name=" +:+ dq +:+ "Sheet2" +:+ dq
  +:+ " sheetId=" +:+ dq +:+ "2" +:+ dq +:+ " " +:+ relationships_attr
  +:+ "=" +:+ dq +:+ "rId2" +:+ dq +:+ " state=" +:+ dq +:+ "visible" +:+ dq
  +:+ "></sheet></sheets></workbook>".

Definition worksheet_xml : string :=
  worksheet_oldXmlns +:+ "<sheetData><row r=" +:+ dq +:+ "1" +:+ dq
  +:+ "></row></sheetData></worksheet>".

(** Cells for [ToSlice]: a cell is a number, and [String] fails on 0. *)
Definition cell_String (cell : Z) : string + error :=
  if cell =? 0 then inr "cell: no text" else inl (Itoa cell).

Definition bad_sheet : Sheet := {|
  Sheet_Name := "Bad";
  Sheet_Selected := false;
  Sheet_Rows := [];
  Sheet_Cols := [];
  Sheet_MaxCol := 0;
  Sheet_Drawings := []
|}.

(** The rows of the sheets of the examples: the sheet named Bad has a
    cell that fails, the others have two rows and a nil row between
    them. *)
Definition rows_of (sheet : Sheet) : list (option (list Z)) :=
  if String.eqb (Sheet_Name sheet) "Bad" then [Some [1; 0; 2]]
  else [Some [1; 2]; None; Some [3]].

Definition sheets_file (sheets : list Sheet) : @File collaborators := {|
  File_Date1904 := false;
  File_styles := None;
  File_Sheets := sheets;
  File_Sheet := list_to_map ((fun sheet => (Sheet_Name sheet, sheet)) <$> sheets);
  File_theme := None;
  File_DefinedNames := [];
  File_Drawings := []
|}.

End Sample.

(** ** [ToSlice] *)

(** The rows and the cells of a sheet are declared in other files of the
    package.  [Sheet_Rows] keeps the texts of the cells, which is what the
    worksheet serializer of the pass is given.  [ToSlice] reads the rows
    themselves: a row of [sheet.Rows] may be nil, and the [String] method
    of a cell may fail.  The section takes the type of the cells, their
    [String] method and the rows of a sheet (a nil row is [None], a row
    is the slice of its cells). *)
Section ToSlice.
Context `{C : Collaborators}.
Context {Cell : Type}.
Variable Cell_String : Cell → string + error.
Variable Rows : Sheet → list (option (list Cell)).

(** [for _, cell := range row.Cells], from the slice [r]. *)
Fixpoint row_loop (cells : list Cell) (r : list string) : list string + error :=
  match cells with
  | [] => inl r
  | cell :: cells' =>
      match Cell_String cell with
      | inr err => inr err
      | inl str => row_loop cells' (r ++ [str])
      end
  end.

(** [for _, row := range sheet.Rows], from the slice [s]. *)
Fixpoint rows_loop (rows : list (option (list Cell))) (s : list (list string))
  : list (list string) + error :=
  match rows with
  | [] => inl s
  | None :: rows' => rows_loop rows' s
  | Some cells :: rows' =>
      match row_loop cells [] with
      | inr err => inr err
      | inl r => rows_loop rows' (s ++ [r])
      end
  end.

(** [for _, sheet := range file.Sheets], from the slice [output]. *)
Fixpoint ToSlice_loop (sheets : list Sheet) (output : list (list (list string)))
  : list (list (list string)) * option error :=
  match sheets with
  | [] => (output, None)
  | sheet :: sheets' =>
      match rows_loop (Rows sheet) [] with
      | inr err => (output, Some err)
      | inl s => ToSlice_loop sheets' (output ++ [s])
      end
  end.

Definition ToSlice (file : File) : list (list (list string)) * option error :=
  ToSlice_loop (File_Sheets file) [].

(** The texts of the cells of a row, when every [String] succeeds. *)
Definition row_texts (cells : list Cell) : option (list string) :=
  mapM (fun cell => match Cell_String cell with inl str => Some str | inr _ => None end)
       cells.

(** The first error among the cells of a row. *)
Fixpoint row_error (cells : list Cell) : option error :=
  match cells with
  | [] => None
  | cell :: cells' =>
      match Cell_String cell with
      | inr err => Some err
      | inl _ => row_error cells'
      end
  end.

(** The rows of a sheet as [ToSlice] gives them when no cell fails: the
    nil rows are left out. *)
Definition sheet_texts (rows : list (option (list Cell))) : option (list (list string)) :=
  mapM row_texts (omap id rows).

End ToSlice.

(** ** The column widths of a sheet, as a function of the column *)

(** The column [j] (from 0) lies in the range of [col]. *)
Definition col_covers (col : Col) (j : Z) : bool :=
  (int_sub (Col_Min col) 1 <=? j) && (j <? Col_Max col).

(** The width of the last entry of [cols] that covers [j], or 0. *)
Definition width_at (cols : list Col) (j : Z) : float64 :=
  fold_left (fun w col => if col_covers col j then Col_Width col else w) cols f64_zero.

(** The range of [col] is empty or lies within the first [maxCol]
    columns. *)
Definition col_fits (maxCol : Z) (col : Col) : Prop :=
  Col_Max col <= int_sub (Col_Min col) 1
  ∨ (0 <= int_sub (Col_Min col) 1 ∧ Col_Max col <= maxCol).

(** The entry of the workbook for the sheet of index [n]. *)
Definition workbook_entry (n : Z) (sheet : Sheet) : xlsxSheet :=
  {| xlsxSheet_Name := Sheet_Name sheet; xlsxSheet_SheetId := Itoa n;
     xlsxSheet_Id := "rId" +:+ Itoa n; xlsxSheet_State := "visible" |}.

(** The names of a list in the order of their first occurrences. *)
Definition first_names (names : list string) : list string :=
  foldl (fun acc n => if bool_decide (n ∈ acc) then acc else acc ++ [n]) [] names.

(** ** Notions used in the statements *)

(** The number of positions of [s] at which [sub] starts. *)
Fixpoint occs (sub s : bytes) : nat :=
  match s with
  | [] => 0%nat
  | _ :: s' => ((if HasPrefix s sub then 1 else 0) + occs sub s')%nat
  end.

Definition occurrences (sub s : string) : nat :=
  occs (list_ascii_of_string sub) (list_ascii_of_string s).

(** [x] and [y] agree as far as both go: one is a prefix of the other. *)
Definition agree (x y : bytes) : bool := HasPrefix x y || HasPrefix y x.

(** No way of laying [P] over [R] so that the two overlap and agree on
    the overlap: [P] can occur in [u ++ R ++ v] only inside [u] or inside
    [v]. *)
Definition clear_of (P R : bytes) : bool :=
  forallb (fun k => negb (agree (drop k P) R)) (seq 0 (length P))
  && forallb (fun k => negb (agree P (drop k R))) (seq 0 (length R)).

(** A positive finite [float64]. *)
Definition f64_finite_pos (x : float64) : Prop :=
  match x with S754_finite false _ _ => True | _ => False end.

(** A positive [float64], finite or infinite. *)
Definition f64_pos (x : float64) : Prop :=
  match x with S754_finite false _ _ | S754_infinity false => True | _ => False end.

(** A zero of either sign, or a NaN. *)
Definition f64_zero_or_nan (x : float64) : Prop :=
  match x with S754_zero _ | S754_nan => True | _ => False end.

(** The anchor entry the loop adds for a drawing resolved to the
    bottom-right cell [(tc, tr)] with offsets [tco] and [tro]. *)
Definition anchor_of (drawing : Drawing) (tc tco tr tro : Z) (embed : string)
  : TwoCellAnchor := {|
  fromCol := ColNum (Drawing_TopLeftCell drawing); fromColOff := 0;
  fromRow := RowNum (Drawing_TopLeftCell drawing); fromRowOff := 0;
  toCol := tc; toColOff := tco; toRow := tr; toRowOff := tro;
  embedId := embed |}.

Section Notions.
Context `{C : Collaborators}.

(** The constants of the anchor computation are positive and finite. *)
Definition positive_units : Prop :=
  f64_finite_pos PixelPerUnitHeight ∧ f64_finite_pos UnitHeightPerCell
  ∧ f64_finite_pos PixelPerUnitWidth ∧ f64_finite_pos NumberPerUnitWidth
  ∧ f64_finite_pos NumberPerUnitHeight
  ∧ f64_pos (f64_mul UnitHeightPerCell NumberPerUnitHeight).

(** The names of the sheets of a file, in display order. *)
Definition sheet_names (f : File) : list string := Sheet_Name <$> File_Sheets f.

(** The sheets of [File_Sheets] and the entries of [File_Sheet] carry the
    same names.  [NewFile] and [AddSheet] keep this. *)
Definition File_wf (f : File) : Prop :=
  ∀ name, name ∈ sheet_names f ↔ is_Some (File_Sheet f !! name).

(** How many sheets of the file carry the name. *)
Definition sheets_named (f : File) (name : string) : nat :=
  length (filter (fun s => Sheet_Name s = name) (File_Sheets f)).





End Notions.

(* ================================================================= *)
(** * Properties *)

(** ** [AddSheet] *)

Section AddSheetProperties.
Context `{C : Collaborators}.

Lemma NewFile_wf : File_wf NewFile.
Proof.
  intros name. unfold sheet_names. simpl. rewrite lookup_empty.
  split; [intros H; by apply elem_of_nil in H | intros [? ?]; discriminate].
Qed.

Lemma AddSheet_duplicate (f : File) (name : string) :
  is_Some (File_Sheet f !! name) →
  AddSheet f name = (f, inr ("duplicate sheet name '" +:+ name +:+ "'.")).
Proof. intros [s Hs]. unfold AddSheet. by rewrite Hs. Qed.

Lemma AddSheet_fresh (f : File) (name : string) :
  File_Sheet f !! name = None →
  ∃ sheet,
    AddSheet f name = (File_with_sheet f sheet, inl sheet)
    ∧ Sheet_Name sheet = name
    ∧ Sheet_Selected sheet = bool_decide (length (File_Sheets f) = 0%nat).
Proof. intros Hn. unfold AddSheet. rewrite Hn. eexists. split; [reflexivity|]. done. Qed.

Lemma File_with_sheet_wf (f : File) (sheet : Sheet) :
  File_wf f → File_wf (File_with_sheet f sheet).
Proof.
  intros Hwf name. unfold sheet_names. simpl.
  rewrite fmap_app, elem_of_app. simpl. rewrite list_elem_of_singleton.
  destruct (decide (Sheet_Name sheet = name)) as [->|Hne].
  - rewrite lookup_insert_eq. split; [eauto | intros _; by right].
  - rewrite lookup_insert_ne by done.
    rewrite <- (Hwf name). unfold sheet_names. split; [intros [?|?]; [done | congruence] | auto].
Qed.

Lemma AddSheet_wf (f : File) (name : string) :
  File_wf f → File_wf (AddSheet f name).1.
Proof.
  intros Hwf. unfold AddSheet. destruct (File_Sheet f !! name); simpl; [done|].
  by apply File_with_sheet_wf.
Qed.

Lemma sheets_named_fresh (f : File) (name : string) :
  File_wf f → File_Sheet f !! name = None → sheets_named f name = 0%nat.
Proof.
  intros Hwf Hn. unfold sheets_named.
  assert (Hnot : name ∉ sheet_names f).
  { rewrite (Hwf name), Hn. intros [? ?]; discriminate. }
  unfold sheet_names in Hnot.
  induction (File_Sheets f) as [|s l IH]; [reflexivity|].
  rewrite fmap_cons, not_elem_of_cons in Hnot. destruct Hnot as [Hne Hl].
  rewrite filter_cons. destruct (decide (Sheet_Name s = name)); [congruence | auto].
Qed.

(** C6. [AddSheet] with a name that the file already has returns an
    error and leaves the file as it was: nothing is appended to the
    sheets and nothing is added to the map.  With a name the file does
    not have yet it succeeds, the new sheet is appended and entered under
    its name, and in a file whose slice and map agree (as they do in
    every file built by [NewFile] and [AddSheet]) the new sheet is the
    only one of that name. *)
Theorem AddSheet_duplicate_or_unique (f : File) (name : string) :
  File_wf f →
  match File_Sheet f !! name with
  | Some _ =>
      ∃ e, AddSheet f name = (f, inr e)
  | None =>
      ∃ sheet,
        AddSheet f name = (File_with_sheet f sheet, inl sheet)
        ∧ Sheet_Name sheet = name
        ∧ File_Sheets (AddSheet f name).1 = File_Sheets f ++ [sheet]
        ∧ File_Sheet (AddSheet f name).1 = <[name := sheet]> (File_Sheet f)
        ∧ sheets_named (AddSheet f name).1 name = 1%nat
        ∧ File_wf (AddSheet f name).1
  end.
Proof.
  intros Hwf. destruct (File_Sheet f !! name) as [s|] eqn:Hl.
  - eexists. apply AddSheet_duplicate. eauto.
  - destruct (AddSheet_fresh f name Hl) as (sheet & HA & Hname & _).
    exists sheet. rewrite HA. simpl. split_and!; try done.
    + by rewrite Hname.
    + unfold sheets_named. simpl. rewrite filter_app, length_app.
      pose proof (sheets_named_fresh f name Hwf Hl) as H0.
      unfold sheets_named in H0. rewrite H0.
      rewrite filter_cons. destruct (decide (Sheet_Name sheet = name)); [reflexivity | congruence].
    + by apply File_with_sheet_wf.
Qed.

End AddSheetProperties.

Lemma AddSheet_duplicate_or_unique_witness :
  @File_wf Sample.collaborators (build ["a"; "b"])
  ∧ (∃ e, @AddSheet Sample.collaborators (build ["a"; "b"]) "b" = (build ["a"; "b"], inr e))
  ∧ @sheets_named Sample.collaborators (AddSheet (build ["a"; "b"]) "c").1 "c" = 1%nat.
Proof.
  assert (Hwf : @File_wf Sample.collaborators (build ["a"; "b"])).
  { unfold build. simpl. do 2 apply AddSheet_wf. apply NewFile_wf. }
  split; [exact Hwf|]. split.
  - pose proof (@AddSheet_duplicate_or_unique Sample.collaborators (build ["a"; "b"]) "b" Hwf) as H.
    destruct (File_Sheet (build ["a"; "b"]) !! "b") eqn:E; [exact H|].
    exfalso. vm_compute in E. discriminate.
  - pose proof (@AddSheet_duplicate_or_unique Sample.collaborators (build ["a"; "b"]) "c" Hwf) as H.
    destruct (File_Sheet (build ["a"; "b"]) !! "c") eqn:E.
    + exfalso. vm_compute in E. discriminate.
    + destruct H as (sheet & _ & _ & _ & _ & H1 & _). exact H1.
Defined.

Section SelectedSheet.
Context `{C : Collaborators}.

Lemma AddSheet_sheets (f : File) (name : string) :
  File_Sheets (AddSheet f name).1 = File_Sheets f
  ∨ ∃ sheet,
      File_Sheets (AddSheet f name).1 = File_Sheets f ++ [sheet]
      ∧ (AddSheet f name).2 = inl sheet
      ∧ Sheet_Name sheet = name
      ∧ Sheet_Selected sheet = bool_decide (length (File_Sheets f) = 0%nat).
Proof.
  unfold AddSheet. destruct (File_Sheet f !! name); simpl; [by left|].
  right. eexists. split_and!; reflexivity.
Qed.

Lemma AddSheet_keeps_first (f : File) (name : string) (first : Sheet) (rest : list Sheet) :
  File_Sheets f = first :: rest →
  Forall (fun s => Sheet_Selected s = false) rest →
  ∃ rest',
    File_Sheets (AddSheet f name).1 = first :: rest'
    ∧ Forall (fun s => Sheet_Selected s = false) rest'.
Proof.
  intros Hf Hrest. destruct (AddSheet_sheets f name) as [-> | (sheet & -> & _ & _ & Hsel)].
  - exists rest. by split.
  - exists (rest ++ [sheet]). rewrite Hf. split; [reflexivity|].
    apply Forall_app. split; [done|]. apply Forall_singleton.
    rewrite Hsel, Hf. reflexivity.
Qed.

Lemma fold_AddSheet_keeps_first (names : list string) (f : File) (first : Sheet) (rest : list Sheet) :
  File_Sheets f = first :: rest →
  Forall (fun s => Sheet_Selected s = false) rest →
  ∃ rest',
    File_Sheets (fold_left (fun f name => (AddSheet f name).1) names f) = first :: rest'
    ∧ Forall (fun s => Sheet_Selected s = false) rest'.
Proof.
  revert f rest. induction names as [|name names IH]; intros f rest Hf Hrest; simpl.
  - exists rest. by split.
  - destruct (AddSheet_keeps_first f name first rest Hf Hrest) as (rest1 & H1 & H2).
    exact (IH _ rest1 H1 H2).
Qed.

(** C10. In a file built by [AddSheet] calls alone (the first name is
    [name], the later ones are [names]) exactly one sheet is flagged
    selected, and it is the first sheet created: the sheets are
    [first :: rest] with [first] selected and no sheet of [rest]
    selected.  For every file, the sheet a successful [AddSheet] creates
    is selected exactly when the file had no sheet before the call. *)
Theorem AddSheet_selects_first_only (name : string) (names : list string) :
  (∃ first rest,
      File_Sheets (build (name :: names)) = first :: rest
      ∧ Sheet_Name first = name
      ∧ Sheet_Selected first = true
      ∧ Forall (fun s => Sheet_Selected s = false) rest
      ∧ Sheet_Selected <$> File_Sheets (build (name :: names))
        = true :: replicate (length rest) false)
  ∧ (∀ (f : File) (n : string) (sheet : Sheet),
        (AddSheet f n).2 = inl sheet →
        (Sheet_Selected sheet = true ↔ File_Sheets f = [])).
Proof.
  split.
  - unfold build. simpl.
    edestruct (fold_AddSheet_keeps_first names (File_with_sheet NewFile
      {| Sheet_Name := name; Sheet_Selected := true; Sheet_Rows := [];
         Sheet_Cols := []; Sheet_MaxCol := 0; Sheet_Drawings := [] |}))
      as (rest & Hs & Hrest); [reflexivity | constructor |].
    assert (HA : (AddSheet NewFile name).1 = File_with_sheet NewFile
      {| Sheet_Name := name; Sheet_Selected := true; Sheet_Rows := [];
         Sheet_Cols := []; Sheet_MaxCol := 0; Sheet_Drawings := [] |}).
    { unfold AddSheet. change (File_Sheet NewFile) with (∅ : gmap string Sheet).
      rewrite lookup_empty. reflexivity. }
    rewrite HA. eexists _, rest. split; [exact Hs|]. split_and!; try done.
    rewrite Hs, fmap_cons. simpl. f_equal.
    clear Hs. induction Hrest as [|s l Hsel Hl IH]; [reflexivity|].
    rewrite fmap_cons, Hsel. simpl. by f_equal.
  - intros f n sheet. unfold AddSheet.
    destruct (File_Sheet f !! n); simpl; [discriminate|].
    intros [= <-]. simpl. rewrite bool_decide_eq_true.
    destruct (File_Sheets f); simpl; split; intros; done.
Qed.

End SelectedSheet.

(** ** The anchor of a drawing *)

Lemma int_wrap_id (z : Z) : is_int z → int_wrap z = z.
Proof.
  unfold is_int, int_wrap, int_min, int_max. intros H.
  rewrite Z.mod_small; lia.
Qed.

Lemma int_add_exact (a b : Z) : is_int (a + b) → int_add a b = a + b.
Proof. apply int_wrap_id. Qed.

Lemma f64_mul_zero_r (x : float64) : f64_zero_or_nan (f64_mul x f64_zero).
Proof. destruct x as [s|s| |s m e]; exact I. Qed.

Lemma f64_div_zero_or_nan (x y : float64) :
  f64_zero_or_nan x → f64_finite_pos y → f64_zero_or_nan (f64_div x y).
Proof.
  destruct x as [s|s| |s m e]; try contradiction;
    destruct y as [s'|s'| |[] m' e']; try contradiction; intros _ _; exact I.
Qed.

Lemma f64_mul_zero_or_nan (x y : float64) :
  f64_zero_or_nan x → f64_finite_pos y → f64_zero_or_nan (f64_mul x y).
Proof.
  destruct x as [s|s| |s m e]; try contradiction;
    destruct y as [s'|s'| |[] m' e']; try contradiction; intros _ _; exact I.
Qed.

Lemma f64_ge_zero_or_nan_pos (x y : float64) :
  f64_zero_or_nan x → f64_pos y → f64_ge x y = false.
Proof.
  destruct x as [s|s| |s m e]; try contradiction;
    destruct y as [s'|[]| |[] m' e']; try contradiction; intros _ _; reflexivity.
Qed.

Lemma int_of_f64_zero_or_nan (x : float64) :
  f64_zero_or_nan x → int_of_f64 x = 0 ∨ int_of_f64 x = int_min.
Proof. destruct x; try contradiction; intros _; [by left | by right]. Qed.

Section AnchorProperties.
Context `{C : Collaborators}.

Lemma drawing_step_bottom_right fuel colWidths st drawing tc tco tr tro :
  bottom_right fuel colWidths drawing = Return (tc, tco, tr, tro) →
  drawing_step fuel colWidths st drawing =
  Return {|
    ds_parts :=
      <[media_path (imageName_of (int_add (ds_drawingCount st) 1) drawing)
        := Drawing_ImageData drawing]> (ds_parts st);
    ds_drawingCount := int_add (ds_drawingCount st) 1;
    ds_xDrawingRel :=
      (AddDrawingRelationship
         (imageName_of (int_add (ds_drawingCount st) 1) drawing)
         (ds_xDrawingRel st)).2;
    ds_xDrawing :=
      ds_xDrawing st ++
      [anchor_of drawing tc tco tr tro (next_rId (ds_xDrawingRel st))] |}.
Proof. intros H. unfold drawing_step. rewrite H. reflexivity. Qed.

Lemma bottom_right_both_spans fuel colWidths drawing :
  0 < Drawing_RowCount drawing → 0 < Drawing_ColCount drawing →
  bottom_right fuel colWidths drawing =
  Return (int_add (ColNum (Drawing_TopLeftCell drawing)) (Drawing_ColCount drawing), 0,
          int_add (RowNum (Drawing_TopLeftCell drawing)) (Drawing_RowCount drawing), 0).
Proof.
  intros Hr Hc. unfold bottom_right.
  apply Z.ltb_lt in Hr, Hc. rewrite Hr, Hc. reflexivity.
Qed.

(** C5. A drawing with a positive column count and a positive row count
    at the top-left cell [(c0, r0)] gets the bottom-right cell
    [(c0 + ColCount, r0 + RowCount)], the sums being those of Go's [int]
    (equal to the exact sums whenever these fit an [int]), and the
    offsets 0 on both cells; this is the anchor entry that the loop adds
    to the drawing part. *)
Theorem both_spans_bottom_right fuel colWidths st (drawing : Drawing) :
  0 < Drawing_RowCount drawing → 0 < Drawing_ColCount drawing →
  let c0 := ColNum (Drawing_TopLeftCell drawing) in
  let r0 := RowNum (Drawing_TopLeftCell drawing) in
  let tc := int_add c0 (Drawing_ColCount drawing) in
  let tr := int_add r0 (Drawing_RowCount drawing) in
  bottom_right fuel colWidths drawing = Return (tc, 0, tr, 0)
  ∧ (∃ st', drawing_step fuel colWidths st drawing = Return st'
            ∧ ds_xDrawing st' =
              ds_xDrawing st ++
              [anchor_of drawing tc 0 tr 0 (next_rId (ds_xDrawingRel st))])
  ∧ (is_int (c0 + Drawing_ColCount drawing) → tc = c0 + Drawing_ColCount drawing)
  ∧ (is_int (r0 + Drawing_RowCount drawing) → tr = r0 + Drawing_RowCount drawing).
Proof.
  intros Hr Hc c0 r0 tc tr.
  pose proof (bottom_right_both_spans fuel colWidths drawing Hr Hc) as Hb.
  split_and!.
  - exact Hb.
  - eexists. split; [apply (drawing_step_bottom_right _ _ _ _ _ _ _ _ Hb)|]. reflexivity.
  - apply int_add_exact.
  - apply int_add_exact.
Qed.

End AnchorProperties.

Lemma both_spans_bottom_right_witness :
  0 < 3 ∧ 0 < 2
  ∧ @bottom_right Sample.collaborators 0 [] (Sample.png 0 0 2 3 640 480)
    = Return (2, 0, 3, 0).
Proof.
  split; [lia|]. split; [lia|].
  exact (proj1 (@both_spans_bottom_right Sample.collaborators 0 []
                  {| ds_parts := ∅; ds_drawingCount := 0;
                     ds_xDrawingRel := []; ds_xDrawing := [] |}
                  (Sample.png 0 0 2 3 640 480) eq_refl eq_refl)).
Defined.

Section UnguardedDrawings.
Context `{C : Collaborators}.

Lemma sum_cols_zero_turns colWidths acc colIndex :
  sum_cols 0 colWidths acc colIndex = Return acc.
Proof. reflexivity. Qed.

Lemma bottom_right_neither_span fuel colWidths (drawing : Drawing) :
  positive_units →
  Drawing_RowCount drawing = 0 → Drawing_ColCount drawing = 0 →
  is_int (ColNum (Drawing_TopLeftCell drawing)) →
  ∃ off,
    bottom_right (S fuel) colWidths drawing =
    Return (ColNum (Drawing_TopLeftCell drawing), 0,
            RowNum (Drawing_TopLeftCell drawing), off)
    ∧ (off = 0 ∨ off = int_min).
Proof.
  intros (HppH & _ & _ & _ & HnpH & Hunit) Hr Hc Hc0.
  unfold bottom_right. rewrite Hr, Hc. simpl andb. cbv iota.
  change (0 <? 0) with false. cbv iota.
  unfold int_add. rewrite Z.add_0_r, (int_wrap_id _ Hc0), Z.sub_diag.
  change (Z.to_nat 0) with 0%nat. rewrite sum_cols_zero_turns.
  change (Return f64_zero ≫= ?k) with (k f64_zero). cbv beta.
  set (t := f64_mul (f64_div (f64_mul _ f64_zero) PixelPerUnitHeight) NumberPerUnitHeight).
  assert (Ht : f64_zero_or_nan t).
  { apply f64_mul_zero_or_nan; [|done].
    apply f64_div_zero_or_nan; [|done]. apply f64_mul_zero_r. }
  unfold walk_rows. rewrite (f64_ge_zero_or_nan_pos _ _ Ht Hunit).
  exists (int_of_f64 t). split; [reflexivity|].
  by apply int_of_f64_zero_or_nan.
Qed.

(** C2, as the code has it.  A drawing with neither count given (both 0)
    is not rejected.  With positive unit constants the loop over the
    drawings writes its media part into the part map, resolves it in the
    branch for a column count alone to the bottom-right cell equal to
    its top-left cell with column offset 0, and adds that anchor and the
    media relationship; the step returns a state, and no error arises
    from the drawing. *)
Theorem neither_span_is_anchored fuel colWidths st (drawing : Drawing) :
  positive_units →
  Drawing_RowCount drawing = 0 → Drawing_ColCount drawing = 0 →
  is_int (ColNum (Drawing_TopLeftCell drawing)) →
  ∃ st' off,
    drawing_step (S fuel) colWidths st drawing = Return st'
    ∧ ds_parts st' !! media_path (imageName_of (int_add (ds_drawingCount st) 1) drawing)
      = Some (Drawing_ImageData drawing)
    ∧ ds_xDrawing st' =
      ds_xDrawing st ++
      [anchor_of drawing (ColNum (Drawing_TopLeftCell drawing)) 0
                 (RowNum (Drawing_TopLeftCell drawing)) off
                 (next_rId (ds_xDrawingRel st))]
    ∧ (off = 0 ∨ off = int_min).
Proof.
  intros Hu Hr Hc Hc0.
  destruct (bottom_right_neither_span fuel colWidths drawing Hu Hr Hc Hc0)
    as (off & Hb & Hoff).
  eexists _, off. split; [apply (drawing_step_bottom_right _ _ _ _ _ _ _ _ Hb)|].
  simpl. split_and!; [apply lookup_insert_eq | reflexivity | exact Hoff].
Qed.



(** The column walk ends: with more fuel than the slice has elements it
    returns a column of the slice or panics on a read outside it.  (The
    length of a slice is an [int].) *)
Lemma walk_cols_ends fuel colWidths targeWidth colIndex :
  Z.of_nat (length colWidths) <= int_max →
  Z.of_nat (length colWidths) - colIndex < Z.of_nat fuel → (0 < fuel)%nat →
  walk_cols fuel colWidths targeWidth colIndex = Panic index_out_of_range
  ∨ ∃ c t, walk_cols fuel colWidths targeWidth colIndex = Return (c, t)
           ∧ colIndex <= c < Z.of_nat (length colWidths).
Proof.
  intros Hint. revert targeWidth colIndex.
  induction fuel as [|fuel IH]; intros t c Hlen Hpos; [lia|].
  simpl. unfold slice_get.
  destruct (c <? 0) eqn:Hneg; [by left|]. apply Z.ltb_ge in Hneg.
  destruct (colWidths !! Z.to_nat c) as [w|] eqn:Hw; [|by left].
  apply lookup_lt_Some in Hw.
  change (Return w ≫= ?k) with (k w). cbv beta.
  destruct (f64_ge t (f64_mul w NumberPerUnitWidth)).
  - assert (Hadd : int_add c 1 = c + 1).
    { apply int_add_exact. unfold is_int, int_min. unfold int_max in *. lia. }
    rewrite Hadd.
    destruct (IH (f64_sub t (f64_mul w NumberPerUnitWidth)) (c + 1)) as [H|(c' & t' & H & Hc')];
      [lia | lia | by left | right].
    exists c', t'. split; [done | lia].
  - right. exists c, t. split; [done | lia].
Qed.

(** A drawing with a row count alone on a sheet without columns: the
    first read of the walk is outside the slice, whatever the constants. *)
Lemma bottom_right_no_columns fuel (drawing : Drawing) :
  0 < Drawing_RowCount drawing → Drawing_ColCount drawing <= 0 →
  bottom_right (S fuel) [] drawing = Panic index_out_of_range.
Proof.
  intros Hr Hc. unfold bottom_right.
  apply Z.ltb_lt in Hr. rewrite Hr. apply Z.ltb_ge in Hc. rewrite Hc. simpl.
  unfold slice_get. destruct (ColNum (Drawing_TopLeftCell drawing) <? 0); reflexivity.
Qed.

End UnguardedDrawings.

(** ** The document examples *)

Lemma Sample_positive_units : @positive_units Sample.collaborators.
Proof. vm_compute. tauto. Defined.

Lemma neither_span_is_anchored_witness :
  @positive_units Sample.collaborators
  ∧ Drawing_RowCount (Sample.png 1 2 0 0 640 480) = 0
  ∧ Drawing_ColCount (Sample.png 1 2 0 0 640 480) = 0
  ∧ is_int 1
  ∧ ∃ st' off,
      @drawing_step Sample.collaborators 1 []
        {| ds_parts := ∅; ds_drawingCount := 0; ds_xDrawingRel := []; ds_xDrawing := [] |}
        (Sample.png 1 2 0 0 640 480) = Return st'
      ∧ ds_parts st' !! "xl/media/image1.png" = Some "PNG"
      ∧ ds_xDrawing st' = [anchor_of (Sample.png 1 2 0 0 640 480) 1 0 2 off "rId1"]
      ∧ (off = 0 ∨ off = int_min).
Proof.
  assert (Hint : is_int 1) by (unfold is_int, int_min, int_max; lia).
  split; [exact Sample_positive_units|]. do 2 (split; [reflexivity|]).
  split; [exact Hint|].
  exact (@neither_span_is_anchored Sample.collaborators 0 []
           {| ds_parts := ∅; ds_drawingCount := 0; ds_xDrawingRel := []; ds_xDrawing := [] |}
           (Sample.png 1 2 0 0 640 480) Sample_positive_units eq_refl eq_refl Hint).
Defined.

(** The claim C2 fails on this document: one sheet with one drawing that
    has neither count.  [MarshallParts] returns the part map without an
    error, and the media part of the drawing is in it. *)
Lemma neither_span_not_rejected :
  ∃ f' p,
    @MarshallParts Sample.collaborators 1
      (Sample.one_sheet (Sample.sheet_with 0 [] [Sample.png 0 0 0 0 640 480]))
    = Return (f', p, None)
    ∧ p !! "xl/media/image1.png" = Some "PNG".
Proof. eexists _, _. split; vm_compute; reflexivity. Qed.



(** C4 at the failing input.  One sheet of one column without a width
    (so [colWidths] is the slice of the single width 0) and one drawing
    at the cell (0, 0) with the row count 1 alone: the walk passes the
    column 0, then reads [colWidths[1]] and [MarshallParts] panics; on a
    sheet without any column the first read already panics. *)
Theorem column_walk_reads_outside_the_slice :
  @MarshallParts Sample.collaborators 2
    (Sample.one_sheet (Sample.sheet_with 1 [] [Sample.png 0 0 0 1 640 480]))
  = Panic index_out_of_range
  ∧ @walk_cols Sample.collaborators 2 [f64_zero]
      (f64_mul (f64_div (@targetWidthInPixel_of Sample.collaborators
                           (Sample.png 0 0 0 1 640 480))
                        (@PixelPerUnitWidth Sample.collaborators))
               (@NumberPerUnitWidth Sample.collaborators)) 0
    = Panic index_out_of_range
  ∧ @MarshallParts Sample.collaborators 2
      (Sample.one_sheet (Sample.sheet_with 0 [] [Sample.png 0 0 0 1 640 480]))
    = Panic index_out_of_range.
Proof. split_and!; vm_compute; reflexivity. Qed.

(** ** [Write] and the order of the members *)



Section WriteProperties.
Context `{C : Collaborators}.


End WriteProperties.





(** ** Media parts, relationships and the content-type manifest *)

Section Registry.
Context `{C : Collaborators}.












End Registry.


(** ** [strings.Replace] *)

Section ReplaceProperties.

Lemma HasPrefix_nil_r (s : bytes) : HasPrefix s [] = true.
Proof. by destruct s. Qed.

Lemma HasPrefix_app_l (x y P : bytes) :
  HasPrefix x P = true → HasPrefix (x ++ y) P = true.
Proof.
  revert x. induction P as [|p P IH]; intros x H; [apply HasPrefix_nil_r|].
  destruct x as [|c x]; [discriminate|]. simpl in *.
  apply andb_true_iff in H as [-> H]. simpl. by apply IH.
Qed.

Lemma HasPrefix_self_app (P t : bytes) : HasPrefix (P ++ t) P = true.
Proof.
  induction P as [|p P IH]; [apply HasPrefix_nil_r|].
  simpl. by rewrite Ascii.eqb_refl.
Qed.

Lemma HasPrefix_app_inv (x y P : bytes) :
  HasPrefix (x ++ y) P = true →
  HasPrefix x P = true
  ∨ ((length x < length P)%nat ∧ HasPrefix P x = true
     ∧ HasPrefix y (drop (length x) P) = true).
Proof.
  revert P. induction x as [|c x IH]; intros P H.
  - destruct P as [|p P]; [by left|]. right. simpl. split_and!; [lia | done | exact H].
  - destruct P as [|p P]; [by left|]. simpl in H.
    apply andb_true_iff in H as [Hc H]. destruct (IH P H) as [Hl|(Hlen & Hp & Hy)].
    + left. simpl. by rewrite Hc.
    + right. simpl. split_and!; [lia | | exact Hy].
      apply Ascii.eqb_eq in Hc as ->. by rewrite Ascii.eqb_refl.
Qed.

Lemma agree_of_HasPrefix_app (x y P : bytes) :
  HasPrefix (x ++ y) P = true → agree P x = true.
Proof.
  intros H. unfold agree. destruct (HasPrefix_app_inv x y P H) as [Hl|(_ & Hp & _)].
  - rewrite Hl. apply orb_true_r.
  - by rewrite Hp.
Qed.

Lemma clear_of_l (P R : bytes) (k : nat) :
  clear_of P R = true → (k < length P)%nat → agree (drop k P) R = false.
Proof.
  unfold clear_of. intros H Hk. apply andb_true_iff in H as [H _].
  rewrite forallb_forall in H. apply negb_true_iff, H, in_seq. lia.
Qed.

Lemma clear_of_r (P R : bytes) (k : nat) :
  clear_of P R = true → (k < length R)%nat → agree P (drop k R) = false.
Proof.
  unfold clear_of. intros H Hk. apply andb_true_iff in H as [_ H].
  rewrite forallb_forall in H. apply negb_true_iff, H, in_seq. lia.
Qed.

Lemma occs_suffix_clear (P R' v : bytes) :
  (∀ k, (k < length R')%nat → agree P (drop k R') = false) →
  occs P (R' ++ v) = occs P v.
Proof.
  induction R' as [|c R' IH]; intros H; [reflexivity|].
  simpl app. cbn [occs].
  destruct (HasPrefix (c :: R' ++ v) P) eqn:E.
  - apply (agree_of_HasPrefix_app (c :: R') v P) in E.
    assert (H0 : agree P (drop 0 (c :: R')) = false) by (apply H; simpl; lia).
    simpl in H0. congruence.
  - simpl. apply IH. intros k Hk. apply (H (S k)). simpl. lia.
Qed.

Lemma occs_app_clear (P R u v : bytes) :
  clear_of P R = true → occs P (u ++ R ++ v) = (occs P u + occs P v)%nat.
Proof.
  intros Hc. induction u as [|c u IH].
  - simpl. apply occs_suffix_clear. intros k Hk. by apply clear_of_r.
  - simpl app. cbn [occs]. rewrite IH.
    assert (HasPrefix (c :: u ++ R ++ v) P = HasPrefix (c :: u) P) as ->; [|lia].
    destruct (HasPrefix (c :: u) P) eqn:E.
    + by apply (HasPrefix_app_l (c :: u) (R ++ v) P).
    + apply not_true_is_false. intros H.
      destruct (HasPrefix_app_inv (c :: u) (R ++ v) P H) as [Hl|(Hlen & _ & Hy)];
        [congruence|].
      apply agree_of_HasPrefix_app in Hy. by rewrite clear_of_l in Hy.
Qed.

Lemma occs_app_ge (P u v : bytes) : (occs P u + occs P v ≤ occs P (u ++ v))%nat.
Proof.
  induction u as [|c u IH]; [simpl; lia|].
  simpl app. cbn [occs].
  destruct (HasPrefix (c :: u) P) eqn:E.
  - pose proof (HasPrefix_app_l (c :: u) v P E) as E'. simpl app in E'.
    rewrite E'. lia.
  - destruct (HasPrefix (c :: u ++ v) P); lia.
Qed.

Lemma occs_self_app (P v : bytes) : P ≠ [] → (1 + occs P v ≤ occs P (P ++ v))%nat.
Proof.
  intros HP. destruct P as [|p P]; [done|].
  change ((p :: P) ++ v) with (p :: (P ++ v)). cbn [occs].
  change (p :: (P ++ v)) with ((p :: P) ++ v). rewrite HasPrefix_self_app.
  pose proof (occs_app_ge (p :: P) P v). lia.
Qed.

Lemma HasPrefix_nil_l (P : bytes) : P ≠ [] → HasPrefix [] P = false.
Proof. by destruct P. Qed.

Lemma Index_None_occs (P s : bytes) :
  P ≠ [] → Index s P = None ↔ occs P s = 0%nat.
Proof.
  intros HP. induction s as [|c s IH].
  - cbn [Index occs]. rewrite (HasPrefix_nil_l P HP). done.
  - cbn [Index occs]. destruct (HasPrefix (c :: s) P).
    + split; [discriminate | lia].
    + destruct (Index s P) eqn:E; simpl.
      * split; [discriminate|]. intros H. apply IH in H. discriminate.
      * split; [intros _; by apply IH | done].
Qed.

Lemma Index_Some_split (P s : bytes) (j : nat) :
  Index s P = Some j →
  s = take j s ++ P ++ drop (j + length P) s ∧ occs P (take j s) = 0%nat.
Proof.
  revert j. induction s as [|c s IH]; intros j.
  - destruct P as [|p P]; cbn; [|discriminate]. by intros [= <-].
  - cbn [Index]. destruct (HasPrefix (c :: s) P) eqn:E.
    + intros [= <-]. split; [|reflexivity]. simpl take. simpl app.
      revert E. generalize (c :: s). clear. intros s. revert s.
      induction P as [|p P IH]; intros s E; [reflexivity|].
      destruct s as [|c s]; [discriminate|]. simpl in E.
      apply andb_true_iff in E as [Hc E]. apply Ascii.eqb_eq in Hc as ->.
      simpl. f_equal. by apply IH.
    + destruct (Index s P) as [j'|] eqn:Ej; [|discriminate].
      simpl. intros [= <-]. destruct (IH j' eq_refl) as [Hs Ho].
      split; [simpl; by f_equal|].
      simpl take. cbn [occs]. rewrite Ho.
      destruct (HasPrefix (c :: take j' s) P) eqn:E'; [|reflexivity].
      apply (HasPrefix_app_l _ (drop j' s)) in E'.
      change ((c :: take j' s) ++ drop j' s) with (c :: (take j' s ++ drop j' s)) in E'.
      rewrite take_drop in E'. congruence.
Qed.

Lemma Count_loop_ge (fuel : nat) (s P : bytes) (n : nat) :
  (n ≤ Count_loop fuel s P n)%nat.
Proof.
  revert s n. induction fuel as [|fuel IH]; intros s n; [simpl; lia|].
  simpl. destruct (Index s P); [|lia].
  etransitivity; [|apply IH]. lia.
Qed.

Lemma Replace_no_occurrence (s old new : bytes) (n : Z) :
  old ≠ [] → occs old s = 0%nat → Replace s old new n = s.
Proof.
  intros Ho H. apply (Index_None_occs old s Ho) in H.
  unfold Replace. destruct (bool_decide (old = new) || (n =? 0)); [reflexivity|].
  unfold Count. simpl. by rewrite H.
Qed.

Lemma Replace_first (s old new : bytes) (j : nat) :
  old ≠ new → Index s old = Some j →
  Replace s old new 1 = take j s ++ new ++ drop (j + length old) s.
Proof.
  intros Hne Hj. unfold Replace. rewrite bool_decide_eq_false_2 by done.
  change (false || (1 =? 0)) with false. cbv iota.
  unfold Count. cbn [Count_loop]. rewrite Hj.
  pose proof (Count_loop_ge (length s) (drop (j + length old) s) old 1) as Hge.
  destruct (Count_loop _ _ _ _) as [|m] eqn:E; [lia|].
  change (S m =? 0)%nat with false. cbv iota.
  assert ((Z.of_nat (S m) <? 1) = false) as -> by (apply Z.ltb_ge; lia).
  change ((1 <? 0) || false) with false. cbv iota.
  change (Z.to_nat 1) with 1%nat. simpl. by rewrite Hj.
Qed.

Lemma Replace_all (s old new : bytes) :
  old ≠ new → Replace s old new (-1) = Replace_loop (Count s old) s old new.
Proof.
  intros Hne. unfold Replace. rewrite bool_decide_eq_false_2 by done.
  change (false || (-1 =? 0)) with false. cbv iota.
  destruct (Count s old); reflexivity.
Qed.

(** Replacing every occurrence of [old] by a [new] that [old] is clear
    of leaves no occurrence of [old], and adds no occurrence of a [W]
    that is clear of [new]. *)
Lemma Replace_loop_Count (old new W : bytes) (fuel : nat) (s : bytes) (n : nat) :
  old ≠ [] → clear_of old new = true → clear_of W new = true →
  (length s < fuel)%nat →
  occs old (Replace_loop (Count_loop fuel s old n - n) s old new) = 0%nat
  ∧ (occs W (Replace_loop (Count_loop fuel s old n - n) s old new) ≤ occs W s)%nat.
Proof.
  intros Ho Hc HW. revert s n.
  induction fuel as [|fuel IH]; intros s n Hlen; [lia|].
  cbn [Count_loop]. destruct (Index s old) as [j|] eqn:Hj.
  - destruct (Index_Some_split old s j Hj) as [Hs Hu].
    set (s' := drop (j + length old) s) in *.
    assert (Hlen' : (length s' < fuel)%nat).
    { pose proof (f_equal length Hs) as Hl. rewrite !length_app in Hl.
      destruct old; [done|]. simpl in Hl. lia. }
    destruct (IH s' (S n) Hlen') as [IH1 IH2].
    pose proof (Count_loop_ge fuel s' old (S n)) as Hge.
    replace (Count_loop fuel s' old (S n) - n)%nat
      with (S (Count_loop fuel s' old (S n) - S n)) by lia.
    cbn [Replace_loop]. rewrite Hj. fold s'.
    rewrite !occs_app_clear by done. split; [lia|].
    rewrite Hs at 2.
    pose proof (occs_app_ge W (take j s) (old ++ s')).
    pose proof (occs_app_ge W old s'). lia.
  - rewrite Nat.sub_diag. simpl. split; [by apply Index_None_occs | lia].
Qed.

Lemma Replace_all_clear (old new W s : bytes) :
  old ≠ [] → old ≠ new → clear_of old new = true → clear_of W new = true →
  occs old (Replace s old new (-1)) = 0%nat
  ∧ (occs W (Replace s old new (-1)) ≤ occs W s)%nat.
Proof.
  intros Ho Hne Hc HW. rewrite Replace_all by done. unfold Count.
  pose proof (Replace_loop_Count old new W (S (length s)) s 0 Ho Hc HW) as H.
  rewrite Nat.sub_0_r in H. apply H. lia.
Qed.

(** Replacing the first occurrence of [old], when it is the only one, by
    a [new] that [old] is clear of leaves no occurrence of [old], and
    adds no occurrence of a [W] that is clear of [new]. *)
Lemma Replace_first_clear (old new W s : bytes) :
  old ≠ [] → old ≠ new → clear_of old new = true → clear_of W new = true →
  (occs old s ≤ 1)%nat →
  occs old (Replace s old new 1) = 0%nat
  ∧ (occs W (Replace s old new 1) ≤ occs W s)%nat.
Proof.
  intros Ho Hne Hc HW H1. destruct (Index s old) as [j|] eqn:Hj.
  - rewrite (Replace_first s old new j Hne Hj).
    destruct (Index_Some_split old s j Hj) as [Hs Hu].
    set (v := drop (j + length old) s) in *.
    rewrite !occs_app_clear by done.
    pose proof (occs_app_ge old (take j s) (old ++ v)).
    pose proof (occs_self_app old v Ho).
    pose proof (occs_app_ge W (take j s) (old ++ v)).
    pose proof (occs_app_ge W old v).
    rewrite <- Hs in *. split; lia.
  - apply (Index_None_occs old s Ho) in Hj.
    rewrite Replace_no_occurrence by done. split; [done | lia].
Qed.

End ReplaceProperties.

(** ** The namespace rewrites are idempotent *)

Lemma strings_Replace_bytes (s old new : string) (n : Z) :
  list_ascii_of_string (strings_Replace s old new n)
  = Replace (list_ascii_of_string s) (list_ascii_of_string old)
            (list_ascii_of_string new) n.
Proof. unfold strings_Replace. apply list_ascii_of_string_of_list_ascii. Qed.

Lemma strings_Replace_no_occurrence (s old new : string) (n : Z) :
  list_ascii_of_string old ≠ [] →
  occurrences old s = 0%nat → strings_Replace s old new n = s.
Proof.
  intros Ho H. unfold strings_Replace.
  rewrite Replace_no_occurrence by done. apply string_of_list_ascii_of_string.
Qed.

Lemma replaceWorksheetNameSpace_no_root (s : string) :
  (occurrences worksheet_oldXmlns s ≤ 1)%nat →
  occurrences worksheet_oldXmlns (replaceWorksheetNameSpace s) = 0%nat.
Proof.
  intros H. unfold occurrences, replaceWorksheetNameSpace.
  rewrite strings_Replace_bytes.
  apply (Replace_first_clear _ _ (list_ascii_of_string worksheet_oldXmlns));
    try done; try (by vm_compute).
Qed.

Lemma replaceRelationshipsNameSpace_clean (w : string) :
  (occurrences workbook_oldXmlns w ≤ 1)%nat →
  occurrences relationships_attr (replaceRelationshipsNameSpace w) = 0%nat
  ∧ occurrences workbook_oldXmlns (replaceRelationshipsNameSpace w) = 0%nat.
Proof.
  intros H. unfold occurrences, replaceRelationshipsNameSpace in *.
  rewrite !strings_Replace_bytes.
  set (A := list_ascii_of_string relationships_attr).
  set (O := list_ascii_of_string workbook_oldXmlns) in *.
  set (N := list_ascii_of_string workbook_newXmlns).
  set (R := list_ascii_of_string "r:id").
  destruct (Replace_all_clear A R O (list_ascii_of_string w)) as [HA HO];
    try (by vm_compute).
  set (y := Replace (list_ascii_of_string w) A R (-1)) in *.
  destruct (Replace_first_clear O N A y) as [HO' HA']; try (by vm_compute); [lia|].
  split; [lia | exact HO'].
Qed.

(** C7. On a marshalled document, in which the start tag of the root
    element occurs at most once, each of the two rewrites gives the same
    text when it is applied a second time. *)
Theorem namespace_rewrites_idempotent (w s : string) :
  (occurrences workbook_oldXmlns w ≤ 1)%nat →
  (occurrences worksheet_oldXmlns s ≤ 1)%nat →
  replaceRelationshipsNameSpace (replaceRelationshipsNameSpace w)
  = replaceRelationshipsNameSpace w
  ∧ replaceWorksheetNameSpace (replaceWorksheetNameSpace s)
    = replaceWorksheetNameSpace s.
Proof.
  intros Hw Hs. split.
  - destruct (replaceRelationshipsNameSpace_clean w Hw) as [HA HO].
    set (x := replaceRelationshipsNameSpace w) in *.
    unfold replaceRelationshipsNameSpace at 1.
    rewrite (strings_Replace_no_occurrence x relationships_attr) by (done || by vm_compute).
    apply strings_Replace_no_occurrence; [by vm_compute | exact HO].
  - pose proof (replaceWorksheetNameSpace_no_root s Hs) as HO.
    set (x := replaceWorksheetNameSpace s) in *.
    unfold replaceWorksheetNameSpace at 1.
    apply strings_Replace_no_occurrence; [by vm_compute | exact HO].
Qed.

Lemma namespace_rewrites_idempotent_witness :
  (occurrences workbook_oldXmlns Sample.workbook_xml ≤ 1)%nat
  ∧ (occurrences worksheet_oldXmlns Sample.worksheet_xml ≤ 1)%nat
  ∧ replaceRelationshipsNameSpace (replaceRelationshipsNameSpace Sample.workbook_xml)
    = replaceRelationshipsNameSpace Sample.workbook_xml
  ∧ replaceWorksheetNameSpace (replaceWorksheetNameSpace Sample.worksheet_xml)
    = replaceWorksheetNameSpace Sample.worksheet_xml.
Proof.
  assert (Hw : (occurrences workbook_oldXmlns Sample.workbook_xml ≤ 1)%nat)
    by (vm_compute; lia).
  assert (Hs : (occurrences worksheet_oldXmlns Sample.worksheet_xml ≤ 1)%nat)
    by (vm_compute; lia).
  split; [exact Hw|]. split; [exact Hs|].
  exact (namespace_rewrites_idempotent Sample.workbook_xml Sample.worksheet_xml Hw Hs).
Defined.

(** The rewrites do change the two sample documents. *)
Example rewrites_change_the_samples :
  replaceRelationshipsNameSpace Sample.workbook_xml ≠ Sample.workbook_xml
  ∧ replaceWorksheetNameSpace Sample.worksheet_xml ≠ Sample.worksheet_xml
  ∧ replaceRelationshipsNameSpace Sample.workbook_xml
    = workbook_newXmlns +:+ "<sheets><sheet name=" +:+ dq +:+ "Sheet1" +:+ dq
      +:+ " sheetId=" +:+ dq +:+ "1" +:+ dq +:+ " r:id=" +:+ dq +:+ "rId1" +:+ dq
      +:+ " state=" +:+ dq +:+ "visible" +:+ dq
      +:+ "></sheet><sheet name=" +:+ dq +:+ "Sheet2" +:+ dq
      +:+ " sheetId=" +:+ dq +:+ "2" +:+ dq +:+ " r:id=" +:+ dq +:+ "rId2" +:+ dq
      +:+ " state=" +:+ dq +:+ "visible" +:+ dq
      +:+ "></sheet></sheets></workbook>".
Proof. split_and!; vm_compute; (discriminate || reflexivity). Qed.

(* ================================================================= *)
(** * Further properties of file.go *)

(** ** Files built by [AddSheet] *)

Section BuiltFiles.
Context `{C : Collaborators}.

Lemma sheet_names_AddSheet (f : File) (name : string) :
  File_wf f →
  sheet_names (AddSheet f name).1
  = if bool_decide (name ∈ sheet_names f) then sheet_names f
    else sheet_names f ++ [name].
Proof.
  intros Hwf. unfold AddSheet.
  destruct (File_Sheet f !! name) as [s|] eqn:E; cbn [fst].
  - rewrite bool_decide_eq_true_2; [done|]. apply Hwf. eauto.
  - rewrite (bool_decide_eq_false_2 (name ∈ sheet_names f)).
    + unfold sheet_names. simpl. by rewrite fmap_app.
    + rewrite (Hwf name), E. intros [? ?]; discriminate.
Qed.

Lemma sheet_names_fold (names : list string) (f : File) :
  File_wf f →
  File_wf (fold_left (fun f name => (AddSheet f name).1) names f)
  ∧ sheet_names (fold_left (fun f name => (AddSheet f name).1) names f)
    = foldl (fun acc n => if bool_decide (n ∈ acc) then acc else acc ++ [n])
            (sheet_names f) names.
Proof.
  revert f. induction names as [|name names IH]; intros f Hwf; [done|].
  simpl. destruct (IH (AddSheet f name).1 (AddSheet_wf f name Hwf)) as [H1 H2].
  split; [exact H1|]. rewrite H2. by rewrite sheet_names_AddSheet.
Qed.

Lemma first_names_fold_spec (names acc : list string) :
  NoDup acc →
  let r := foldl (fun acc n => if bool_decide (n ∈ acc) then acc else acc ++ [n]) acc names in
  NoDup r ∧ ∀ n, n ∈ r ↔ n ∈ acc ∨ n ∈ names.
Proof.
  revert acc. induction names as [|name names IH]; intros acc Hnd; simpl.
  - split; [done|]. intros n. rewrite elem_of_nil. tauto.
  - destruct (bool_decide (name ∈ acc)) eqn:E.
    + apply bool_decide_eq_true in E. destruct (IH acc Hnd) as [H1 H2].
      split; [exact H1|]. intros n. rewrite H2, elem_of_cons.
      split; [tauto|]. intros [?|[->|?]]; auto.
    + apply bool_decide_eq_false in E.
      assert (Hnd' : NoDup (acc ++ [name])).
      { apply NoDup_app. split_and!; [done | | apply NoDup_singleton].
        intros x Hx Hx'. apply list_elem_of_singleton in Hx' as ->. done. }
      destruct (IH (acc ++ [name]) Hnd') as [H1 H2].
      split; [exact H1|]. intros n.
      rewrite H2, elem_of_app, list_elem_of_singleton, elem_of_cons. tauto.
Qed.

(** X1. The sheets of a file built from [NewFile] by [AddSheet] calls are
    named by the names of the calls, each name once, in the order of the
    first call with that name; the map of the file has exactly these
    names. *)
Theorem build_sheet_names (names : list string) :
  sheet_names (build names) = first_names names
  ∧ NoDup (sheet_names (build names))
  ∧ (∀ n, n ∈ sheet_names (build names) ↔ n ∈ names)
  ∧ (∀ n, is_Some (File_Sheet (build names) !! n) ↔ n ∈ names).
Proof.
  destruct (sheet_names_fold names NewFile NewFile_wf) as [Hwf Hn].
  destruct (first_names_fold_spec names [] (NoDup_nil_2)) as [Hnd Hin].
  fold (build names) in Hwf, Hn. change (sheet_names NewFile) with (@nil string) in Hn.
  fold (first_names names) in Hn, Hnd, Hin. rewrite Hn.
  assert (Hmem : ∀ n, n ∈ first_names names ↔ n ∈ names).
  { intros n. rewrite Hin, elem_of_nil. tauto. }
  split_and!; try done.
  intros n. rewrite <- (Hwf n), Hn. apply Hmem.
Qed.

End BuiltFiles.

(** ** [ToSlice] *)

Section ToSliceProperties.
Context `{C : Collaborators}.
Context {Cell : Type}.
Variable Cell_String : Cell → string + error.
Variable Rows : Sheet → list (option (list Cell)).

Lemma row_loop_texts (cells : list Cell) (r ts : list string) :
  row_texts Cell_String cells = Some ts →
  row_loop Cell_String cells r = inl (r ++ ts).
Proof.
  revert r ts. induction cells as [|cell cells IH]; intros r ts.
  - intros [= <-]. simpl. by rewrite app_nil_r.
  - unfold row_texts. cbn. destruct (Cell_String cell) as [str|err]; [|discriminate].
    cbn. fold (row_texts Cell_String cells).
    destruct (row_texts Cell_String cells) as [ts'|]; [|discriminate].
    cbn. intros [= <-]. rewrite (IH _ ts' eq_refl), <- app_assoc. reflexivity.
Qed.

Lemma row_loop_error (cells : list Cell) (r : list string) :
  row_texts Cell_String cells = None →
  ∃ err cell,
    row_loop Cell_String cells r = inr err
    ∧ cell ∈ cells ∧ Cell_String cell = inr err
    ∧ row_error Cell_String cells = Some err.
Proof.
  revert r. induction cells as [|cell cells IH]; intros r; [discriminate|].
  unfold row_texts. cbn. destruct (Cell_String cell) as [str|err] eqn:E.
  - cbn. fold (row_texts Cell_String cells).
    destruct (row_texts Cell_String cells) as [ts'|]; [discriminate|].
    intros _. destruct (IH (r ++ [str]) eq_refl) as (err & c & H1 & H2 & H3 & H4).
    exists err, c. split_and!; try done. by apply list_elem_of_further.
  - intros _. exists err, cell. split_and!; try done. apply list_elem_of_here.
Qed.

Lemma rows_loop_texts (rows : list (option (list Cell))) (s ts : list (list string)) :
  sheet_texts Cell_String rows = Some ts →
  rows_loop Cell_String rows s = inl (s ++ ts).
Proof.
  revert s ts. induction rows as [|[cells|] rows IH]; intros s ts.
  - intros [= <-]. simpl. by rewrite app_nil_r.
  - unfold sheet_texts. cbn. fold (sheet_texts Cell_String rows).
    destruct (row_texts Cell_String cells) as [r|] eqn:Er; [|discriminate].
    cbn. destruct (sheet_texts Cell_String rows) as [ts'|]; [|discriminate].
    cbn. intros [= <-]. rewrite (row_loop_texts cells [] r Er). simpl.
    rewrite (IH _ ts' eq_refl), <- app_assoc. reflexivity.
  - unfold sheet_texts. cbn. fold (sheet_texts Cell_String rows). apply IH.
Qed.

Lemma rows_loop_error (rows : list (option (list Cell))) (s : list (list string)) :
  sheet_texts Cell_String rows = None →
  ∃ err cells cell,
    rows_loop Cell_String rows s = inr err
    ∧ Some cells ∈ rows ∧ cell ∈ cells ∧ Cell_String cell = inr err.
Proof.
  revert s. induction rows as [|[cells|] rows IH]; intros s; [discriminate| |].
  - unfold sheet_texts. cbn. fold (sheet_texts Cell_String rows).
    destruct (row_texts Cell_String cells) as [r|] eqn:Er.
    + cbn. destruct (sheet_texts Cell_String rows) as [ts'|]; [discriminate|].
      intros _. rewrite (row_loop_texts cells [] r Er).
      destruct (IH (s ++ [[] ++ r]) eq_refl) as (err & cs & c & H1 & H2 & H3 & H4).
      exists err, cs, c. split_and!; try done. by apply list_elem_of_further.
    + intros _. destruct (row_loop_error cells [] Er) as (err & c & H1 & H2 & H3 & _).
      exists err, cells, c. rewrite H1. split_and!; try done. apply list_elem_of_here.
  - unfold sheet_texts. cbn. fold (sheet_texts Cell_String rows).
    intros H. destruct (IH s H) as (err & cs & c & H1 & H2 & H3 & H4).
    exists err, cs, c. split_and!; try done. by apply list_elem_of_further.
Qed.

Lemma ToSlice_loop_texts (sheets : list Sheet) (output outs : list (list (list string))) :
  mapM (fun sheet => sheet_texts Cell_String (Rows sheet)) sheets = Some outs →
  ToSlice_loop Cell_String Rows sheets output = (output ++ outs, None).
Proof.
  revert output outs. induction sheets as [|sheet sheets IH]; intros output outs.
  - intros [= <-]. simpl. by rewrite app_nil_r.
  - cbn. destruct (sheet_texts Cell_String (Rows sheet)) as [s|] eqn:Es; [|discriminate].
    cbn. destruct (mapM _ sheets) as [outs'|]; [|discriminate].
    cbn. intros [= <-]. rewrite (rows_loop_texts _ [] s Es). simpl.
    rewrite (IH _ outs' eq_refl), <- app_assoc. reflexivity.
Qed.

(** X2. When the [String] method fails on no cell of the file, [ToSlice]
    returns no error and one slice per sheet, in the order of the sheets:
    the rows of the sheet that are not nil, in their order, each as the
    texts of its cells.  A sheet without rows gives an empty slice, a nil
    row gives nothing. *)
Theorem ToSlice_texts (file : File) (outs : list (list (list string))) :
  mapM (fun sheet => sheet_texts Cell_String (Rows sheet)) (File_Sheets file) = Some outs →
  ToSlice Cell_String Rows file = (outs, None)
  ∧ length outs = length (File_Sheets file).
Proof.
  intros H. split.
  - unfold ToSlice. by rewrite (ToSlice_loop_texts _ [] outs H).
  - symmetry. by apply (length_mapM _ _ _ H).
Qed.

(** X3. When the first sheet with a cell whose [String] method fails is
    [bad], [ToSlice] returns the error of a cell of [bad] together with
    the slices of the sheets before [bad], and nothing of [bad] or of the
    sheets after it. *)
Theorem ToSlice_error (file : File) (done rest : list Sheet) (bad : Sheet)
    (outs : list (list (list string))) :
  File_Sheets file = done ++ bad :: rest →
  mapM (fun sheet => sheet_texts Cell_String (Rows sheet)) done = Some outs →
  sheet_texts Cell_String (Rows bad) = None →
  ∃ err cells cell,
    ToSlice Cell_String Rows file = (outs, Some err)
    ∧ Some cells ∈ Rows bad ∧ cell ∈ cells ∧ Cell_String cell = inr err.
Proof.
  intros Hf Hdone Hbad. unfold ToSlice. rewrite Hf.
  destruct (rows_loop_error (Rows bad) [] Hbad) as (err & cells & cell & H1 & H2 & H3 & H4).
  exists err, cells, cell. split_and!; try done.
  clear Hf.
  assert (Hloop : ∀ output,
    ToSlice_loop Cell_String Rows (done ++ bad :: rest) output
    = (output ++ outs, Some err)); [|exact (Hloop [])].
  revert outs Hdone. induction done as [|sheet done' IH]; intros outs Hdone output.
  - injection Hdone as <-. simpl. by rewrite H1, app_nil_r.
  - cbn in Hdone.
    destruct (sheet_texts Cell_String (Rows sheet)) as [s|] eqn:Es; [|discriminate].
    cbn in Hdone. destruct (mapM _ done') as [outs'|]; [|discriminate].
    cbn in Hdone. injection Hdone as <-.
    simpl. rewrite (rows_loop_texts _ [] s Es). simpl.
    rewrite (IH outs' eq_refl), <- app_assoc. reflexivity.
Qed.

End ToSliceProperties.

Lemma ToSlice_texts_witness :
  mapM (fun sheet => sheet_texts Sample.cell_String (Sample.rows_of sheet))
       (File_Sheets (Sample.sheets_file [Sample.sheet_with 0 [] []; Sample.sheet_with 0 [] []]))
  = Some [[["1"; "2"]; ["3"]]; [["1"; "2"]; ["3"]]]
  ∧ ToSlice Sample.cell_String Sample.rows_of
      (Sample.sheets_file [Sample.sheet_with 0 [] []; Sample.sheet_with 0 [] []])
    = ([[["1"; "2"]; ["3"]]; [["1"; "2"]; ["3"]]], None)
  ∧ length [[["1"; "2"]; ["3"]]; [["1"; "2"]; ["3"]]]
    = length (File_Sheets
                (Sample.sheets_file [Sample.sheet_with 0 [] []; Sample.sheet_with 0 [] []])).
Proof.
  split; [reflexivity|].
  exact (@ToSlice_texts Sample.collaborators Z Sample.cell_String Sample.rows_of
           (Sample.sheets_file [Sample.sheet_with 0 [] []; Sample.sheet_with 0 [] []])
           [[["1"; "2"]; ["3"]]; [["1"; "2"]; ["3"]]] eq_refl).
Defined.

Lemma ToSlice_error_witness :
  File_Sheets (Sample.sheets_file
                 [Sample.sheet_with 0 [] []; Sample.bad_sheet; Sample.sheet_with 0 [] []])
  = [Sample.sheet_with 0 [] []] ++ Sample.bad_sheet :: [Sample.sheet_with 0 [] []]
  ∧ mapM (fun sheet => sheet_texts Sample.cell_String (Sample.rows_of sheet))
         [Sample.sheet_with 0 [] []]
    = Some [[["1"; "2"]; ["3"]]]
  ∧ sheet_texts Sample.cell_String (Sample.rows_of Sample.bad_sheet) = None
  ∧ ∃ err cells cell,
      ToSlice Sample.cell_String Sample.rows_of
        (Sample.sheets_file
           [Sample.sheet_with 0 [] []; Sample.bad_sheet; Sample.sheet_with 0 [] []])
      = ([[["1"; "2"]; ["3"]]], Some err)
      ∧ Some cells ∈ Sample.rows_of Sample.bad_sheet ∧ cell ∈ cells
      ∧ Sample.cell_String cell = inr err.
Proof.
  split; [reflexivity|]. split; [reflexivity|]. split; [reflexivity|].
  exact (@ToSlice_error Sample.collaborators Z Sample.cell_String Sample.rows_of
           (Sample.sheets_file
              [Sample.sheet_with 0 [] []; Sample.bad_sheet; Sample.sheet_with 0 [] []])
           [Sample.sheet_with 0 [] []] [Sample.sheet_with 0 [] []] Sample.bad_sheet
           [[["1"; "2"]; ["3"]]] eq_refl eq_refl eq_refl).
Defined.

(** ** The column widths of a sheet *)

Section ColWidths.
Context `{C : Collaborators}.

Lemma fill_col_returns (n : nat) (w : float64) (i : Z) (l l' : list float64) :
  fill_col n w i l = Return l' →
  length l' = length l
  ∧ (n = 0%nat ∨ (0 <= i ∧ i + Z.of_nat n <= Z.of_nat (length l)))
  ∧ ∀ k : nat,
      l' !! k = if bool_decide (i <= Z.of_nat k < i + Z.of_nat n) then Some w else l !! k.
Proof.
  revert i l. induction n as [|n IH]; intros i l.
  - intros [= <-]. split_and!; [done | by left |].
    intros k. rewrite bool_decide_eq_false_2; [done | lia].
  - cbn [fill_col]. unfold slice_set.
    destruct ((i <? 0) || (Z.of_nat (length l) <=? i)) eqn:E; [discriminate|].
    apply orb_false_iff in E as [E1 E2]. apply Z.ltb_ge in E1. apply Z.leb_gt in E2.
    change (Return ?x ≫= ?k) with (k x). cbv beta. intros H.
    destruct (IH _ _ H) as (Hlen & Hrange & Hk).
    rewrite length_insert in Hlen, Hrange. split_and!; [done | right; lia |].
    intros k. rewrite Hk. destruct (decide (k = Z.to_nat i)) as [->|Hne].
    + rewrite list_lookup_insert_eq by lia.
      rewrite (bool_decide_eq_true_2 (i <= _ < i + Z.of_nat (S n))) by lia.
      by destruct (bool_decide _).
    + rewrite list_lookup_insert_ne by done.
      destruct (bool_decide (i + 1 <= Z.of_nat k < i + 1 + Z.of_nat n)) eqn:B.
      * apply bool_decide_eq_true in B. rewrite bool_decide_eq_true_2; [done | lia].
      * apply bool_decide_eq_false in B. rewrite bool_decide_eq_false_2; [done | lia].
Qed.

Lemma fill_col_in_range (n : nat) (w : float64) (i : Z) (l : list float64) :
  n = 0%nat ∨ (0 <= i ∧ i + Z.of_nat n <= Z.of_nat (length l)) →
  ∃ l', fill_col n w i l = Return l'.
Proof.
  revert i l. induction n as [|n IH]; intros i l Hr; [by eexists|].
  destruct Hr as [?|[H0 H1]]; [done|].
  cbn [fill_col]. unfold slice_set.
  rewrite (proj2 (Z.ltb_ge i 0)) by lia.
  rewrite (proj2 (Z.leb_gt (Z.of_nat (length l)) i)) by lia.
  change (Return ?x ≫= ?k) with (k x). cbv beta.
  apply IH. rewrite length_insert. destruct n; [by left | right; lia].
Qed.

Lemma fill_col_out_of_range (n : nat) (w : float64) (i : Z) (l : list float64) :
  n ≠ 0%nat → ¬ (0 <= i ∧ i + Z.of_nat n <= Z.of_nat (length l)) →
  fill_col n w i l = Panic index_out_of_range.
Proof.
  revert i l. induction n as [|n IH]; intros i l Hn Hr; [done|].
  cbn [fill_col]. unfold slice_set.
  destruct ((i <? 0) || (Z.of_nat (length l) <=? i)) eqn:E; [reflexivity|].
  apply orb_false_iff in E as [E1 E2]. apply Z.ltb_ge in E1. apply Z.leb_gt in E2.
  change (Return ?x ≫= ?k) with (k x). cbv beta.
  apply IH; [|rewrite length_insert]; lia.
Qed.

Lemma col_step_fits (maxCol : Z) (col : Col) (l : list float64) :
  length l = Z.to_nat maxCol → 0 <= maxCol → col_fits maxCol col →
  ∃ l',
    fill_col (Z.to_nat (Col_Max col - int_sub (Col_Min col) 1)) (Col_Width col)
             (int_sub (Col_Min col) 1) l = Return l'
    ∧ length l' = length l
    ∧ ∀ j, 0 <= j < maxCol →
           l' !! Z.to_nat j
           = if col_covers col j then Some (Col_Width col) else l !! Z.to_nat j.
Proof.
  intros Hlen Hmax Hfit. set (i := int_sub (Col_Min col) 1) in *.
  destruct (fill_col_in_range (Z.to_nat (Col_Max col - i)) (Col_Width col) i l)
    as [l' Hl'].
  { unfold col_fits in Hfit. fold i in Hfit.
    destruct (decide (Col_Max col <= i)); [left; lia | right; lia]. }
  exists l'. split; [exact Hl'|].
  destruct (fill_col_returns _ _ _ _ _ Hl') as (Hlen' & _ & Hk).
  split; [exact Hlen'|]. intros j Hj. rewrite Hk. unfold col_covers. fold i.
  destruct (bool_decide (i <= Z.of_nat (Z.to_nat j) < i + Z.of_nat (Z.to_nat (Col_Max col - i)))) eqn:B.
  - apply bool_decide_eq_true in B.
    rewrite (proj2 (Z.leb_le i j)), (proj2 (Z.ltb_lt j (Col_Max col))) by lia. done.
  - apply bool_decide_eq_false in B.
    destruct (i <=? j) eqn:E1; [|done]. destruct (j <? Col_Max col) eqn:E2; [|done].
    apply Z.leb_le in E1. apply Z.ltb_lt in E2. lia.
Qed.

Lemma fold_cols_fits (maxCol : Z) (cols : list Col) (l : list float64) (g : Z → float64) :
  length l = Z.to_nat maxCol → 0 <= maxCol → Forall (col_fits maxCol) cols →
  (∀ j, 0 <= j < maxCol → l !! Z.to_nat j = Some (g j)) →
  ∃ l',
    foldM (fun colWidths col =>
             let i := int_sub (Col_Min col) 1 in
             fill_col (Z.to_nat (Col_Max col - i)) (Col_Width col) i colWidths) cols l
    = Return l'
    ∧ length l' = Z.to_nat maxCol
    ∧ ∀ j, 0 <= j < maxCol →
           l' !! Z.to_nat j
           = Some (fold_left (fun w col => if col_covers col j then Col_Width col else w)
                             cols (g j)).
Proof.
  intros Hlen Hmax Hfits. revert l g Hlen.
  induction Hfits as [|col cols Hfit Hfits IH]; intros l g Hlen Hg.
  - exists l. by split_and!.
  - destruct (col_step_fits maxCol col l Hlen Hmax Hfit) as (l1 & H1 & Hlen1 & Hk1).
    cbn [foldM]. cbv zeta. rewrite H1.
    change (Return l1 ≫= ?k) with (k l1). cbv beta.
    destruct (IH l1 (fun j => if col_covers col j then Col_Width col else g j))
      as (l' & H' & Hlen' & Hk'); [congruence | |].
    + intros j Hj. rewrite (Hk1 j Hj), (Hg j Hj). by destruct (col_covers col j).
    + exists l'. split_and!; try done.
Qed.

(** X4. When the maximal column count of a sheet is not negative and
    the range of every entry of [sheet.Cols] is empty or lies within the
    columns of the sheet, the slice of the column widths has one element
    per column, and the element of a column is the width of the last
    entry whose range holds the column, or 0 when no entry does. *)
Theorem make_colWidths_widths (sheet : Sheet) :
  0 <= Sheet_MaxCol sheet →
  Forall (col_fits (Sheet_MaxCol sheet)) (Sheet_Cols sheet) →
  ∃ colWidths,
    make_colWidths sheet = Return colWidths
    ∧ length colWidths = Z.to_nat (Sheet_MaxCol sheet)
    ∧ ∀ j, 0 <= j < Sheet_MaxCol sheet →
           colWidths !! Z.to_nat j = Some (width_at (Sheet_Cols sheet) j).
Proof.
  intros Hmax Hfits. unfold make_colWidths.
  rewrite (proj2 (Z.ltb_ge (Sheet_MaxCol sheet) 0)) by lia.
  apply (fold_cols_fits _ _ _ (fun _ => f64_zero)); try done.
  - apply length_replicate.
  - intros j Hj. apply lookup_replicate_2. lia.
Qed.

(** X5. [make] panics on a negative maximal column count; and when the
    first entry of [sheet.Cols] whose range is neither empty nor within
    the columns of the sheet is reached, the store into the slice panics
    with an index out of range. *)
Theorem make_colWidths_panics (sheet : Sheet) (fits rest : list Col) (col : Col) :
  (Sheet_MaxCol sheet < 0 → make_colWidths sheet = Panic makeslice_len_out_of_range)
  ∧ (0 <= Sheet_MaxCol sheet →
     Sheet_Cols sheet = fits ++ col :: rest →
     Forall (col_fits (Sheet_MaxCol sheet)) fits →
     ¬ col_fits (Sheet_MaxCol sheet) col →
     make_colWidths sheet = Panic index_out_of_range).
Proof.
  split.
  - intros H. unfold make_colWidths. by rewrite (proj2 (Z.ltb_lt _ 0) H).
  - intros Hmax Hcols Hfits Hbad. unfold make_colWidths.
    rewrite (proj2 (Z.ltb_ge (Sheet_MaxCol sheet) 0)) by lia. rewrite Hcols.
    clear Hcols.
    assert (Hlen : length (replicate (Z.to_nat (Sheet_MaxCol sheet)) f64_zero)
                   = Z.to_nat (Sheet_MaxCol sheet)) by apply length_replicate.
    revert Hlen. generalize (replicate (Z.to_nat (Sheet_MaxCol sheet)) f64_zero).
    induction Hfits as [|c cs Hfit Hfits IH]; intros l Hlen.
    + cbn [app foldM]. cbv zeta. rewrite fill_col_out_of_range; [reflexivity | |].
      * unfold col_fits in Hbad. lia.
      * unfold col_fits in Hbad. rewrite Hlen. lia.
    + destruct (col_step_fits _ c l Hlen Hmax Hfit) as (l1 & H1 & Hlen1 & _).
      cbn [app foldM]. cbv zeta. rewrite H1.
      change (Return l1 ≫= ?k) with (k l1). cbv beta. apply IH. congruence.
Qed.

End ColWidths.
